(** * Settings resolution of msgspec-ext: a shallow embedding

    This development embeds [src/msgspec_ext/settings.py] (the class
    [BaseSettings] and its configuration record [SettingsConfigDict]) and
    proves properties of field cataloguing, environment-key derivation,
    string coercion, value merging, required-field enforcement and the
    schema's required list.

    Conventions.
    - A Python [str] is a Rocq [string] of ASCII characters; [upper] and
      [lower] act on the ASCII letters, as [str.upper] and [str.lower] do on
      ASCII text.
    - A Python [dict] whose order is not observed ([os.environ], the keyword
      arguments, [env_vars], [final_values], the instance attributes) is a
      [gmap string _]; the ordered dicts [__annotations__] and [_fields] are
      association lists, which a class well-formedness predicate requires to
      have pairwise distinct keys.
    - A call that may raise returns an [outcome]: [Ok v] or [Raise e].
    - The interpreter's builtins ([int], [float]) and the msgspec library
      ([msgspec.convert], [msgspec.json.decode], [msgspec.json.schema]) are
      not part of the repository: they are the fields of a record
      [external], over which every general theorem is quantified. *)

From stdpp Require Import base option list strings gmap fin_maps.
From Stdlib Require Import ZArith NArith Ascii String.

Local Open Scope string_scope.
Set Warnings "-register-all".

(** ** Python values and declared types *)

(** The values that flow through resolution. A [float] is carried as the
    64-bit pattern of its IEEE-754 binary64 representation; nothing below
    inspects it. *)
Inductive pyval : Type :=
| VNone
| VBool (b : bool)
| VInt (n : Z)
| VFloat (bits : Z)
| VStr (s : string)
| VList (items : list pyval)
| VDict (entries : list (pyval * pyval))
| VObject (cls : string) (state : list (string * pyval)).

(** [value is None] *)
Definition is_None (v : pyval) : bool :=
  match v with VNone => true | _ => false end.

(** The annotation forms covered: the builtin classes [bool], [int],
    [float], [str], [list], [dict]; [typing.Any]; [typing.Optional[t]],
    [typing.List[t]], [typing.Dict[k, v]]; the builtin generic [list[t]];
    a [msgspec.Struct] subclass and any other class, both by qualified
    name. [typing] makes [Optional[Optional[t]]] the same type as
    [Optional[t]]: the two terms stand for one annotation. *)
Inductive ftype : Type :=
| TBool | TInt | TFloat | TStr | TList | TDict
| TAny
| TOptional (t : ftype)
| TTypingList (t : ftype)
| TTypingDict (k v : ftype)
| TGenericList (t : ftype)
| TStruct (qualname : string)
| TClass (qualname : string).

#[global] Instance ftype_eq_dec : EqDecision ftype.
Proof. solve_decision. Defined.

(** The text [typing] prints for a type used as a parameter. A nested
    [Optional] prints as the single [Optional] it is. *)
Fixpoint type_repr (t : ftype) : string :=
  match t with
  | TBool => "bool" | TInt => "int" | TFloat => "float" | TStr => "str"
  | TList => "list" | TDict => "dict"
  | TAny => "typing.Any"
  | TOptional t' =>
      match t' with
      | TOptional _ => type_repr t'
      | _ => "typing.Optional[" ++ type_repr t' ++ "]"
      end
  | TTypingList t => "typing.List[" ++ type_repr t ++ "]"
  | TTypingDict k v => "typing.Dict[" ++ type_repr k ++ ", " ++ type_repr v ++ "]"
  | TGenericList t => "list[" ++ type_repr t ++ "]"
  | TStruct q => q
  | TClass q => q
  end.

(** [str(field_type)] *)
Definition type_str (t : ftype) : string :=
  match t with
  | TBool | TInt | TFloat | TStr | TList | TDict | TStruct _ | TClass _ =>
      "<class '" ++ type_repr t ++ "'>"
  | _ => type_repr t
  end.

(** ** Exceptions and outcomes *)

(** An exception, by what the handlers of [settings.py] observe of it: its
    class name, whether it is an instance of [ValueError] (which
    [json.JSONDecodeError] is), whether it is an instance of
    [msgspec.ValidationError], and [str(e)]. *)
Record exn : Type := Exn {
  exn_class : string;
  isinstance_ValueError : bool;
  isinstance_ValidationError : bool;
  exn_str : string
}.

(** [ValueError(msg)], the only exception [settings.py] raises itself. *)
Definition ValueError (msg : string) : exn := Exn "ValueError" true false msg.

(** [KeyError(key)], raised by a failed [dict[key]]. *)
Definition KeyError (key : string) : exn :=
  Exn "KeyError" false false ("'" ++ key ++ "'").

Inductive outcome (A : Type) : Type :=
| Ok (a : A)
| Raise (e : exn).
Arguments Ok {A} a.
Arguments Raise {A} e.

Definition obind {A B} (m : outcome A) (k : A -> outcome B) : outcome B :=
  match m with Ok a => k a | Raise e => Raise e end.

Notation "'try!' x := m 'in' k" := (obind m (fun x => k))
  (at level 10, x name, m at level 100, k at level 200, only parsing).

Definition succeeds {A} (m : outcome A) : Prop := exists a, m = Ok a.
Definition aborts {A} (m : outcome A) : Prop := exists e, m = Raise e.

(** ** String methods *)

Definition ascii_upper (c : ascii) : ascii :=
  let n := N_of_ascii c in
  if ((97 <=? n) && (n <=? 122))%N then ascii_of_N (n - 32) else c.

Definition ascii_lower (c : ascii) : ascii :=
  let n := N_of_ascii c in
  if ((65 <=? n) && (n <=? 90))%N then ascii_of_N (n + 32) else c.

Fixpoint string_map (f : ascii -> ascii) (s : string) : string :=
  match s with
  | EmptyString => EmptyString
  | String c s' => String (f c) (string_map f s')
  end.

(** [s.upper()] and [s.lower()] *)
Definition upper : string -> string := string_map ascii_upper.
Definition lower : string -> string := string_map ascii_lower.

(** [s.startswith(p)] *)
Definition startswith (s p : string) : bool := String.prefix p s.

(** [s.endswith(p)]: some suffix of [s] is [p]. *)
Fixpoint endswith (s p : string) : bool :=
  String.eqb s p ||
  match s with
  | EmptyString => false
  | String _ s' => endswith s' p
  end.

(** [s.split(sep)] for a one-character separator: never empty, one more
    piece than there are separators. *)
Fixpoint split (sep : ascii) (s : string) : list string :=
  match s with
  | EmptyString => [EmptyString]
  | String c s' =>
      if Ascii.eqb c sep then EmptyString :: split sep s'
      else match split sep s' with
           | piece :: pieces => String c piece :: pieces
           | [] => [String c EmptyString]
           end
  end.

(** [x in (a, b, ...)] on strings *)
Definition str_in (x : string) (xs : list string) : bool :=
  existsb (String.eqb x) xs.

(** [sub in s] *)
Fixpoint contains (s sub : string) : bool :=
  String.prefix sub s ||
  match s with
  | EmptyString => false
  | String _ s' => contains s' sub
  end.

(** ** The collaborators outside the repository *)

Record external : Type := External {
  (** [int(value)] on a [str] *)
  py_int : string -> outcome Z;
  (** [float(value)] on a [str] *)
  py_float : string -> outcome Z;
  (** [msgspec.json.decode(value.encode())] *)
  json_decode : string -> outcome pyval;
  (** [msgspec.json.decode(value.encode(), type=field_type)] *)
  json_decode_as : string -> ftype -> outcome pyval;
  (** [msgspec.convert(value, field_type)] *)
  convert : pyval -> ftype -> outcome pyval;
  (** [msgspec.json.schema(field_type, schema_hook=schema_hook)] for the
      type of a field *)
  json_schema : ftype -> outcome pyval
}.

(** ** The declaration of a settings class *)

(** [SettingsConfigDict] *)
Record SettingsConfigDict : Type := {
  env_file : option string;
  env_file_encoding : string;
  case_sensitive : bool;
  env_prefix : string;
  env_nested_delimiter : string
}.

(** [SettingsConfigDict()] *)
Definition default_config : SettingsConfigDict := {|
  env_file := None;
  env_file_encoding := "utf-8";
  case_sensitive := false;
  env_prefix := "";
  env_nested_delimiter := "__"
|}.

(** A [msgspec.inspect.Field] placed as a class attribute; [None] in
    [field_default] or [field_default_factory] is [msgspec.NODEFAULT]. *)
Record inspect_Field : Type := {
  field_name_override : string;
  field_default : option pyval;
  field_default_factory : option (unit -> outcome pyval)
}.

(** What [getattr(cls, name)] finds. *)
Inductive class_attr : Type :=
| Attr (v : pyval)
| FieldAttr (f : inspect_Field).

(** A subclass of [BaseSettings]: its [model_config], its
    [__annotations__] in declaration order, and its attribute lookup. *)
Record settings_class : Type := {
  model_config : SettingsConfigDict;
  annotations : list (string * ftype);
  class_attrs : gmap string class_attr
}.

(** The entries of [_fields]. *)
Record field_info : Type := {
  fi_type : ftype;
  fi_name : string;
  fi_has_default : bool;
  fi_default : pyval;
  fi_has_default_factory : bool;
  fi_default_factory : option (unit -> outcome pyval)
}.

(** [d[key]] on an ordered dict. *)
Fixpoint dict_lookup {V} (d : list (string * V)) (key : string) : option V :=
  match d with
  | [] => None
  | (k, v) :: d' => if String.eqb k key then Some v else dict_lookup d' key
  end.

(** [d.get(key)] on a dict value with [str] keys. *)
Fixpoint pydict_get (entries : list (pyval * pyval)) (key : string) : option pyval :=
  match entries with
  | [] => None
  | (VStr k, v) :: rest => if String.eqb k key then Some v else pydict_get rest key
  | _ :: rest => pydict_get rest key
  end.

(** [a or b] on strings *)
Definition str_or (a b : string) : string :=
  match a with EmptyString => b | _ => a end.

(** The body of the loop of [_get_fields_info]. *)
Definition field_info_of (cls : settings_class) (field_name : string)
    (field_type : ftype) : field_info :=
  match class_attrs cls !! field_name with
  | Some (FieldAttr f) => {|
      fi_type := field_type;
      fi_name := str_or (field_name_override f) field_name;
      fi_has_default := bool_decide (is_Some (field_default f));
      fi_default := default VNone (field_default f);
      fi_has_default_factory := bool_decide (is_Some (field_default_factory f));
      fi_default_factory := field_default_factory f |}
  | Some (Attr v) => {|
      fi_type := field_type;
      fi_name := field_name;
      fi_has_default := true;
      fi_default := v;
      fi_has_default_factory := false;
      fi_default_factory := None |}
  | None => {|
      fi_type := field_type;
      fi_name := field_name;
      fi_has_default := false;
      fi_default := VNone;
      fi_has_default_factory := false;
      fi_default_factory := None |}
  end.

(** [_get_fields_info] *)
Fixpoint _get_fields_info_loop (cls : settings_class)
    (items : list (string * ftype)) : list (string * field_info) :=
  match items with
  | [] => []
  | (field_name, field_type) :: rest =>
      if String.eqb field_name "model_config"
      then _get_fields_info_loop cls rest
      else (field_name, field_info_of cls field_name field_type)
             :: _get_fields_info_loop cls rest
  end.

Definition _get_fields_info (cls : settings_class) : list (string * field_info) :=
  _get_fields_info_loop cls (annotations cls).

(** A field is required when it has neither a default nor a factory. *)
Definition required (info : field_info) : bool :=
  negb (fi_has_default info) && negb (fi_has_default_factory info).

(** [_get_env_name] *)
Definition _get_env_name (config : SettingsConfigDict)
    (fields : list (string * field_info)) (field_name : string) : outcome string :=
  match dict_lookup fields field_name with
  | None => Raise (KeyError field_name)
  | Some info =>
      let name := fi_name info in
      let name := if negb (case_sensitive config) then upper name else name in
      let name := match env_prefix config with
                  | EmptyString => name
                  | prefix => prefix ++ name
                  end in
      Ok name
  end.

(** ** Resolution *)

Section Resolution.

Variable ext : external.

(** [_convert_env_value] *)
Definition _convert_env_value (value : string) (field_type : ftype) : outcome pyval :=
  if bool_decide (field_type = TBool) then
    Ok (VBool (str_in (lower value) ["true"; "1"; "t"; "y"; "yes"]))
  else if bool_decide (field_type = TInt)
          || startswith (type_str field_type) "typing.Optional[int]" then
    try! n := py_int ext value in Ok (VInt n)
  else if bool_decide (field_type = TFloat)
          || startswith (type_str field_type) "typing.Optional[float]" then
    try! x := py_float ext value in Ok (VFloat x)
  else if bool_decide (field_type = TList)
          || startswith (type_str field_type) "typing.List" then
    if startswith value "[" && endswith value "]"
    then json_decode ext value
    else Ok (VList (VStr <$> split "," value))
  else if bool_decide (field_type = TDict)
          || startswith (type_str field_type) "typing.Dict" then
    json_decode ext value
  else match field_type with
       | TStruct _ => json_decode_as ext value field_type
       | _ => Ok (VStr value)
       end.

(** The [try]/[except (ValueError, json.JSONDecodeError)] of
    [_get_env_vars]: a [ValueError] is replaced by one that names the
    environment variable, any other exception propagates. *)
Definition env_parse_error (env_name : string) (e : exn) : exn :=
  if isinstance_ValueError e
  then ValueError ("Error parsing environment variable " ++ env_name ++ ": " ++ exn_str e)
  else e.

(** [_get_env_vars], as the loop over [__annotations__.items()] that
    fills [env_vars]. *)
Fixpoint _get_env_vars_loop (config : SettingsConfigDict)
    (fields : list (string * field_info)) (environ : gmap string string)
    (items : list (string * ftype)) (env_vars : gmap string pyval)
    : outcome (gmap string pyval) :=
  match items with
  | [] => Ok env_vars
  | (field_name, field_type) :: rest =>
      if String.eqb field_name "model_config"
      then _get_env_vars_loop config fields environ rest env_vars
      else
        try! env_name := _get_env_name config fields field_name in
        match environ !! env_name with
        | Some env_value =>
            match _convert_env_value env_value field_type with
            | Ok converted_value =>
                _get_env_vars_loop config fields environ rest
                  (<[field_name := converted_value]> env_vars)
            | Raise e => Raise (env_parse_error env_name e)
            end
        | None => _get_env_vars_loop config fields environ rest env_vars
        end
  end.

Definition _get_env_vars (cls : settings_class)
    (fields : list (string * field_info)) (environ : gmap string string)
    : outcome (gmap string pyval) :=
  _get_env_vars_loop (model_config cls) fields environ (annotations cls) ∅.

(** [_get_field_default] *)
Definition _get_field_default (fields : list (string * field_info))
    (field_name : string) : outcome pyval :=
  match dict_lookup fields field_name with
  | None => Raise (KeyError field_name)
  | Some info =>
      if fi_has_default_factory info then
        match fi_default_factory info with
        | Some factory => factory tt
        | None => Raise (Exn "TypeError" false false "'NoneType' object is not callable")
        end
      else if fi_has_default info then Ok (fi_default info)
      else Ok VNone
  end.

(** The [except msgspec.ValidationError] of [_validate_and_set_values]. *)
Definition validation_error (field_name : string) (e : exn) : exn :=
  if isinstance_ValidationError e
  then ValueError ("Validation error for field " ++ field_name ++ ": " ++ exn_str e)
  else e.

(** The body of the loop of [_validate_and_set_values]: [attrs] are the
    attributes set on the instance so far. *)
Definition set_field (fields : list (string * field_info))
    (values : gmap string pyval) (attrs : gmap string pyval)
    (field_name : string) (info : field_info) : outcome (gmap string pyval) :=
  let value := default VNone (values !! field_name) in
  try! value := (if is_None value then _get_field_default fields field_name
                 else Ok value) in
  if negb (is_None value) then
    match convert ext value (fi_type info) with
    | Ok validated_value => Ok (<[field_name := validated_value]> attrs)
    | Raise e => Raise (validation_error field_name e)
    end
  else if negb (fi_has_default info) && negb (fi_has_default_factory info) then
    Raise (ValueError ("Missing required field: " ++ field_name))
  else Ok attrs.

Fixpoint set_fields (fields : list (string * field_info))
    (values : gmap string pyval) (items : list (string * field_info))
    (attrs : gmap string pyval) : outcome (gmap string pyval) :=
  match items with
  | [] => Ok attrs
  | (field_name, info) :: rest =>
      try! attrs := set_field fields values attrs field_name info in
      set_fields fields values rest attrs
  end.

(** The ["properties"] comprehension of [_generate_schema]. *)
Fixpoint schema_properties (items : list (string * field_info))
    : outcome (list (pyval * pyval)) :=
  match items with
  | [] => Ok []
  | (field_name, info) :: rest =>
      try! s := json_schema ext (fi_type info) in
      try! props := schema_properties rest in
      Ok ((VStr field_name, s) :: props)
  end.

(** The ["required"] comprehension of [_generate_schema]. *)
Definition schema_required (fields : list (string * field_info)) : list string :=
  fst <$> filter (fun item => negb (fi_has_default item.2)
                              && negb (fi_has_default_factory item.2) = true) fields.

(** [_generate_schema]: the mapping [schema_hook] returns for the settings
    class, which [msgspec.json.schema] hands back for a class it has no
    native description of. *)
Definition _generate_schema (fields : list (string * field_info)) : outcome pyval :=
  try! props := schema_properties fields in
  Ok (VDict [ (VStr "type", VStr "object");
              (VStr "properties", VDict props);
              (VStr "required", VList (VStr <$> schema_required fields)) ]).

(** The constructed instance: the attributes set by [setattr] and
    [_schema] ([_fields] is [_get_fields_info] of the class). *)
Record instance : Type := {
  attrs : gmap string pyval;
  _schema : pyval
}.

(** [_validate_and_set_values] *)
Definition _validate_and_set_values (fields : list (string * field_info))
    (values : gmap string pyval) : outcome instance :=
  try! attrs := set_fields fields values fields ∅ in
  try! schema := _generate_schema fields in
  Ok {| attrs := attrs; _schema := schema |}.

(** [{**values, **env_vars}]: on a key of both the entry of [env_vars]
    stands. *)
Definition merge_values (values env_vars : gmap string pyval) : gmap string pyval :=
  env_vars ∪ values.

(** [BaseSettings.__init__], called with the keyword arguments [values];
    [environ] is [os.environ] as [_load_env_files] leaves it. *)
Definition __init__ (cls : settings_class) (environ : gmap string string)
    (values : gmap string pyval) : outcome instance :=
  let fields := _get_fields_info cls in
  try! env_vars := _get_env_vars cls fields environ in
  let final_values := merge_values values env_vars in
  _validate_and_set_values fields final_values.

(** [schema()["required"]] *)
Definition required_of_schema (s : pyval) : option pyval :=
  match s with
  | VDict entries => pydict_get entries "required"
  | _ => None
  end.

End Resolution.

(** ** A reference runtime for closed examples

    The general theorems hold for every [external]. To run the model on a
    concrete class the collaborators must be concrete too; this runtime
    fixes them on scalar declarations, where their behaviour is plain:
    [int] on ASCII text, and msgspec's strict conversion and schema of
    [str], [int] and [bool]. A call it does not describe raises
    [NotCovered], so that an example reaching such a call cannot be
    mistaken for a statement about the library. *)

Module Reference.

Definition NotCovered (what : string) : exn :=
  Exn "NotCovered" false false what.

(** Characters [int] skips as white space around the digits, in ASCII:
    tab to carriage return, and the space. *)
Definition is_space (c : ascii) : bool :=
  let n := N_of_ascii c in
  ((9 <=? n) && (n <=? 13) || (n =? 32))%N.

Definition digit_value (c : ascii) : option Z :=
  let n := N_of_ascii c in
  if ((48 <=? n) && (n <=? 57))%N then Some (Z.of_N (n - 48)) else None.

Fixpoint string_rev_onto (s acc : string) : string :=
  match s with
  | EmptyString => acc
  | String c s' => string_rev_onto s' (String c acc)
  end.

Definition string_rev (s : string) : string := string_rev_onto s EmptyString.

Fixpoint lstrip (s : string) : string :=
  match s with
  | String c s' => if is_space c then lstrip s' else s
  | EmptyString => s
  end.

Definition strip (s : string) : string :=
  string_rev (lstrip (string_rev (lstrip s))).

(** Digits with single underscores between them; [after_digit] tells
    whether the character before was a digit. *)
Fixpoint digits (s : string) (after_digit : bool) (acc : Z) : option Z :=
  match s with
  | EmptyString => if after_digit then Some acc else None
  | String c s' =>
      match digit_value c with
      | Some d => digits s' true (10 * acc + d)
      | None =>
          if Ascii.eqb c "_" && after_digit
          then match s' with
               | String c' _ =>
                   match digit_value c' with
                   | Some _ => digits s' false acc
                   | None => None
                   end
               | EmptyString => None
               end
          else None
      end
  end.

Definition hex_digit (n : N) : ascii :=
  ascii_of_N (if (n <? 10)%N then 48 + n else 87 + n).

(** [repr(s)] of an ASCII [str]. *)
Fixpoint repr_body (quote : ascii) (s : string) : string :=
  match s with
  | EmptyString => EmptyString
  | String c s' =>
      let n := N_of_ascii c in
      let rest := repr_body quote s' in
      if Ascii.eqb c quote || Ascii.eqb c "\" then String "\" (String c rest)
      else if (n =? 9)%N then "\t" ++ rest
      else if (n =? 10)%N then "\n" ++ rest
      else if (n =? 13)%N then "\r" ++ rest
      else if ((n <? 32) || (n =? 127))%N
           then "\x" ++ String (hex_digit (n / 16)) (String (hex_digit (n mod 16)) rest)
      else String c rest
  end.

Definition repr (s : string) : string :=
  let quote : ascii :=
    if contains s "'" && negb (contains s (String (ascii_of_N 34) EmptyString))
    then ascii_of_N 34 else "'"%char in
  String quote (repr_body quote s ++ String quote EmptyString).

(** [int(value)] in base 10. Text beyond the interpreter's default limit
    of 4300 digits is left to [NotCovered]. *)
Definition int (value : string) : outcome Z :=
  let body := strip value in
  let parsed :=
    match body with
    | String "-" s' => Z.opp <$> digits s' false 0
    | String "+" s' => digits s' false 0
    | _ => digits body false 0
    end in
  if (4300 <? N.of_nat (String.length body))%N then Raise (NotCovered "int")
  else match parsed with
       | Some n => Ok n
       | None => Raise (ValueError ("invalid literal for int() with base 10: "
                                    ++ repr value))
       end.

(** The name msgspec's messages give to the type of a value. *)
Definition got (v : pyval) : string :=
  match v with
  | VNone => "null" | VBool _ => "bool" | VInt _ => "int" | VFloat _ => "float"
  | VStr _ => "str" | VList _ => "array" | VDict _ => "object"
  | VObject cls _ => cls
  end.

Definition ValidationError (msg : string) : exn :=
  Exn "ValidationError" false true msg.

Definition is_scalar (v : pyval) : bool :=
  match v with
  | VNone | VBool _ | VInt _ | VStr _ => true
  | _ => false
  end.

(** [msgspec.convert(value, field_type)] with the default [strict=True]. *)
Definition strict_convert (v : pyval) (t : ftype) : outcome pyval :=
  match t, v with
  | TAny, _ => Ok v
  | TStr, VStr _ | TInt, VInt _ | TBool, VBool _ => Ok v
  | TOptional _, VNone => Ok v
  | (TStr | TInt | TBool), _ =>
      if is_scalar v
      then Raise (ValidationError ("Expected `" ++ type_repr t ++ "`, got `" ++ got v ++ "`"))
      else Raise (NotCovered "convert")
  | _, _ => Raise (NotCovered "convert")
  end.

(** [msgspec.json.schema] of a scalar type and of [typing.Any]. *)
Definition scalar_schema (t : ftype) : outcome pyval :=
  match t with
  | TStr => Ok (VDict [(VStr "type", VStr "string")])
  | TInt => Ok (VDict [(VStr "type", VStr "integer")])
  | TBool => Ok (VDict [(VStr "type", VStr "boolean")])
  | TFloat => Ok (VDict [(VStr "type", VStr "number")])
  | TAny => Ok (VDict [])
  | _ => Raise (NotCovered "json.schema")
  end.

Definition runtime : external := {|
  py_int := int;
  py_float := fun _ => Raise (NotCovered "float");
  json_decode := fun _ => Raise (NotCovered "json.decode");
  json_decode_as := fun _ _ => Raise (NotCovered "json.decode");
  convert := strict_convert;
  json_schema := scalar_schema
|}.

End Reference.


(** * Vocabulary of the statements *)

(** [sep.join(pieces)] *)
Fixpoint join (sep : string) (pieces : list string) : string :=
  match pieces with
  | [] => EmptyString
  | [piece] => piece
  | piece :: rest => piece ++ sep ++ join sep rest
  end.

(** [__annotations__] is a dict: its keys are pairwise distinct. *)
Definition wf_class (cls : settings_class) : Prop :=
  NoDup (annotations cls).*1.

(** The external name of a field: the name of its [Field] object when
    that is set, its declared name otherwise. *)
Definition external_name (cls : settings_class) (f : string) : string :=
  match class_attrs cls !! f with
  | Some (FieldAttr fld) =>
      match field_name_override fld with
      | EmptyString => f
      | name => name
      end
  | _ => f
  end.

(** The key the naming policy gives to an external name. *)
Definition env_key (cls : settings_class) (f : string) : string :=
  env_prefix (model_config cls)
  ++ (if case_sensitive (model_config cls) then external_name cls f
      else upper (external_name cls f)).

(** The strings that read as true. *)
Definition truthy : list string := ["true"; "1"; "t"; "y"; "yes"].

(** Equality of strings up to the case of letters, by the alphabet:
    two characters match when they are the same, or are the small and
    the capital form of one letter. *)
Fixpoint letter_pair (a b : ascii) (small capital : string) : bool :=
  match small, capital with
  | String l small', String u capital' =>
      Ascii.eqb a l && Ascii.eqb b u || Ascii.eqb a u && Ascii.eqb b l
      || letter_pair a b small' capital'
  | _, _ => false
  end.

Definition same_letter (a b : ascii) : bool :=
  Ascii.eqb a b
  || letter_pair a b "abcdefghijklmnopqrstuvwxyz" "ABCDEFGHIJKLMNOPQRSTUVWXYZ".

Fixpoint equal_ignoring_case (s w : string) : bool :=
  match s, w with
  | EmptyString, EmptyString => true
  | String a s', String b w' => same_letter a b && equal_ignoring_case s' w'
  | _, _ => false
  end.

(** Every character, for proofs by enumeration. *)
Definition all_ascii : list ascii := List.map ascii_of_nat (List.seq 0 256).

(** The declared types [_convert_env_value] treats as a sequence: the
    class [list] and the [typing.List] forms. *)
Definition sequence_target (t : ftype) : Prop :=
  t = TList \/ exists a, t = TTypingList a.

(** The value [_validate_and_set_values] settles on for a field before
    validation: the entry of the merged values unless it is missing or
    [None], the default otherwise. *)
Definition selected_value (fields : list (string * field_info))
    (values : gmap string pyval) (field_name : string) : outcome pyval :=
  let value := default VNone (values !! field_name) in
  if is_None value then _get_field_default fields field_name else Ok value.

Definition missing_required (field_name : string) : exn :=
  ValueError ("Missing required field: " ++ field_name).

(** The error of a failed pass: the coercion failure of one variable,
    as the handler of the loop reports it. *)
Definition env_failure (ext : external) (config : SettingsConfigDict)
    (fields : list (string * field_info)) (environ : gmap string string)
    (items : list (string * ftype)) (err : exn) : Prop :=
  exists f t key raw e,
    (f, t) ∈ items /\ f <> "model_config"
    /\ _get_env_name config fields f = Ok key
    /\ environ !! key = Some raw
    /\ _convert_env_value ext raw t = Raise e
    /\ err = env_parse_error key e.



(** Whether the class gives a field a default: an ordinary class
    attribute, or a [Field] with a default or a default factory. *)
Definition declares_default (cls : settings_class) (f : string) : bool :=
  match class_attrs cls !! f with
  | Some (Attr _) => true
  | Some (FieldAttr fld) =>
      bool_decide (is_Some (field_default fld))
      || bool_decide (is_Some (field_default_factory fld))
  | None => false
  end.

(** The names of the fields without any default, in declaration order. *)
Definition required_names (cls : settings_class) : list string :=
  filter (fun n => n <> "model_config" /\ declares_default cls n = false)
    (annotations cls).*1.

(** * Example classes *)

(** The policy of the case/prefix law: prefix [APP_], nothing else set. *)
Definition app_policy (cs : bool) : SettingsConfigDict := {|
  env_file := None;
  env_file_encoding := "utf-8";
  case_sensitive := cs;
  env_prefix := "APP_";
  env_nested_delimiter := "__"
|}.

(** A settings class whose only field is [debug: bool]. *)
Definition debug_settings (cs : bool) : settings_class := {|
  model_config := app_policy cs;
  annotations := [("debug", TBool)];
  class_attrs := ∅
|}.

(** [name: str], no default. *)
Definition name_settings : settings_class := {|
  model_config := default_config;
  annotations := [("name", TStr)];
  class_attrs := ∅
|}.

Definition name_instance : instance := {|
  attrs := {[ "name" := VStr "from_env" ]};
  _schema := VDict [ (VStr "type", VStr "object");
                     (VStr "properties",
                      VDict [(VStr "name", VDict [(VStr "type", VStr "string")])]);
                     (VStr "required", VList [VStr "name"]) ]
|}.

(** [host: str] and [port: int], both without default. *)
Definition host_port_settings : settings_class := {|
  model_config := default_config;
  annotations := [("host", TStr); ("port", TInt)];
  class_attrs := ∅
|}.

(** [note: Any], with a default factory that returns [None]. *)
Definition note_settings : settings_class := {|
  model_config := default_config;
  annotations := [("note", TAny)];
  class_attrs :=
    {[ "note" := FieldAttr {| field_name_override := "note";
                              field_default := None;
                              field_default_factory := Some (fun _ => Ok VNone) |} ]}
|}.

(** [tags: Any], with a default factory that returns an empty list. *)
Definition tags_settings : settings_class := {|
  model_config := default_config;
  annotations := [("tags", TAny)];
  class_attrs :=
    {[ "tags" := FieldAttr {| field_name_override := "tags";
                              field_default := None;
                              field_default_factory := Some (fun _ => Ok (VList [])) |} ]}
|}.

Definition tags_instance : instance := {|
  attrs := {[ "tags" := VList [] ]};
  _schema := VDict [ (VStr "type", VStr "object");
                     (VStr "properties", VDict [(VStr "tags", VDict [])]);
                     (VStr "required", VList []) ]
|}.

(** [port: int], no default. *)
Definition port_settings : settings_class := {|
  model_config := default_config;
  annotations := [("port", TInt)];
  class_attrs := ∅
|}.

(** The fields of the schema law: [a], an [int] without default, and
    [b], a [str] with the default [x]. *)
Definition ab_settings : settings_class := {|
  model_config := default_config;
  annotations := [("a", TInt); ("b", TStr)];
  class_attrs := {[ "b" := Attr (VStr "x") ]}
|}.

Definition ab_instance : instance := {|
  attrs := {[ "a" := VInt 1; "b" := VStr "x" ]};
  _schema := VDict [ (VStr "type", VStr "object");
                     (VStr "properties",
                      VDict [ (VStr "a", VDict [(VStr "type", VStr "integer")]);
                              (VStr "b", VDict [(VStr "type", VStr "string")]) ]);
                     (VStr "required", VList [VStr "a"]) ]
|}.

(** * The remaining methods of [BaseSettings] *)

(** [getattr(self, name)] for the name of a field: the attribute
    [setattr] put on the instance, else the attribute of the class.
    ([_fields] and [_schema] are instance attributes too; the lookup is
    modelled for the other names, and for class attributes that are
    plain values or [Field] objects, which the lookup returns as they
    are.) [hasattr(self, name)] holds when the lookup finds something. *)
Definition instance_getattr (cls : settings_class) (inst : instance)
    (name : string) : option class_attr :=
  match attrs inst !! name with
  | Some v => Some (Attr v)
  | None => class_attrs cls !! name
  end.

(** The comprehension of [model_dump], over [self._fields] in order. *)
Fixpoint model_dump_loop (cls : settings_class) (inst : instance)
    (items : list (string * field_info)) : list (string * class_attr) :=
  match items with
  | [] => []
  | (field_name, _) :: rest =>
      match instance_getattr cls inst field_name with
      | Some v => (field_name, v) :: model_dump_loop cls inst rest
      | None => model_dump_loop cls inst rest
      end
  end.

(** [model_dump] *)
Definition model_dump (cls : settings_class) (inst : instance)
    : list (string * class_attr) :=
  model_dump_loop cls inst (_get_fields_info cls).

(** [schema] *)
Definition schema (inst : instance) : pyval := _schema inst.

(** [schema()["properties"]] and [schema()["type"]] *)
Definition properties_of_schema (s : pyval) : option pyval :=
  match s with
  | VDict entries => pydict_get entries "properties"
  | _ => None
  end.

Definition type_of_schema (s : pyval) : option pyval :=
  match s with
  | VDict entries => pydict_get entries "type"
  | _ => None
  end.

(** * Further vocabulary *)

(** [s.count(c)] for a character. *)
Fixpoint count_char (c : ascii) (s : string) : nat :=
  match s with
  | EmptyString => 0
  | String d s' => (if Ascii.eqb d c then 1 else 0) + count_char c s'
  end.

(** Declared types whose environment string is kept as it is: [str],
    [typing.Any], a class that is not a struct, the generic [list[t]],
    and [typing.Optional] of a builtin form other than [int] and [float]
    (a nested [Optional] counts as the single one it is). *)
Fixpoint passes_through (t : ftype) : bool :=
  match t with
  | TStr | TAny | TClass _ | TGenericList _ => true
  | TOptional t' =>
      match t' with
      | TInt | TFloat | TStruct _ | TClass _ => false
      | TOptional _ => passes_through t'
      | _ => true
      end
  | _ => false
  end.

(** The names of the attributes of a constructed instance: [_fields]
    and [_schema], which [__init__] and [_validate_and_set_values] set
    themselves, and the names [setattr] was called with. *)
Definition instance_attribute_names (inst : instance) : gset string :=
  {[ "_fields" ]} ∪ {[ "_schema" ]} ∪ dom (attrs inst).

(** The names of no field are those of the instance's own attributes. *)
Definition reserved_free (cls : settings_class) : Prop :=
  ("_fields" ∉ (annotations cls).*1) /\ ("_schema" ∉ (annotations cls).*1).

(** Two classes that are the same but for the default factory of the
    [Field] object of one field. *)
Definition same_but_factory (cls1 cls2 : settings_class) (f : string) : Prop :=
  model_config cls1 = model_config cls2
  /\ annotations cls1 = annotations cls2
  /\ (forall n, n <> f -> class_attrs cls1 !! n = class_attrs cls2 !! n)
  /\ exists fld1 fld2,
       class_attrs cls1 !! f = Some (FieldAttr fld1)
       /\ class_attrs cls2 !! f = Some (FieldAttr fld2)
       /\ field_name_override fld1 = field_name_override fld2
       /\ field_default fld1 = field_default fld2
       /\ is_Some (field_default_factory fld1)
       /\ is_Some (field_default_factory fld2).

(** [tags: Any] with a default factory that raises. *)
Definition failing_tags_settings : settings_class := {|
  model_config := default_config;
  annotations := [("tags", TAny)];
  class_attrs :=
    {[ "tags" := FieldAttr {| field_name_override := "tags";
                              field_default := None;
                              field_default_factory :=
                                Some (fun _ => Raise (Exn "RuntimeError" false false
                                                        "no default")) |} ]}
|}.

(** [options: dict], no default. *)
Definition options_settings : settings_class := {|
  model_config := default_config;
  annotations := [("options", TDict)];
  class_attrs := ∅
|}.

(** The reference runtime with a decoder that describes one input: on
    an opening brace alone [msgspec.json.decode] raises its
    [DecodeError], which is not a [ValueError]. *)
Definition truncating_runtime : external := {|
  py_int := py_int Reference.runtime;
  py_float := py_float Reference.runtime;
  json_decode := fun s =>
    if String.eqb s "{"
    then Raise (Exn "DecodeError" false false "Input data was truncated")
    else json_decode Reference.runtime s;
  json_decode_as := json_decode_as Reference.runtime;
  convert := convert Reference.runtime;
  json_schema := json_schema Reference.runtime
|}.

(** The [TypeError] of [msgspec.json.schema] for a class it has no
    description of, when the hook gives none either. *)
Definition unsupported_type (t : ftype) : exn :=
  let nl := String (ascii_of_N 10) EmptyString in
  Exn "TypeError" false false
    ("Generating JSON schema for custom types requires either:" ++ nl
     ++ "- specifying a `schema_hook`" ++ nl
     ++ "- annotating the type with `Meta(extra_json_schema=...)`" ++ nl
     ++ nl
     ++ "type " ++ type_str t ++ " is not supported").

(** The reference runtime extended to the classes msgspec does not know:
    [msgspec.convert] returns an object that is an instance of the class
    as it is, and [msgspec.json.schema] raises a [TypeError] for the
    class. *)
Definition custom_type_runtime : external := {|
  py_int := py_int Reference.runtime;
  py_float := py_float Reference.runtime;
  json_decode := json_decode Reference.runtime;
  json_decode_as := json_decode_as Reference.runtime;
  convert := fun v t =>
    match v, t with
    | VObject cls _, TClass q =>
        if String.eqb cls q then Ok v else convert Reference.runtime v t
    | _, _ => convert Reference.runtime v t
    end;
  json_schema := fun t =>
    match t with
    | TClass _ => Raise (unsupported_type t)
    | _ => json_schema Reference.runtime t
    end
|}.

(** [token: SecretStr], a class msgspec has no schema for. *)
Definition token_settings : settings_class := {|
  model_config := default_config;
  annotations := [("token", TClass "msgspec_ext.types.secret.SecretStr")];
  class_attrs := ∅
|}.

(** * Properties *)

(** ** Strings *)

Lemma append_cons (c : ascii) (s t : string) : String c s ++ t = String c (s ++ t).
Proof. reflexivity. Qed.

Lemma append_nil_l (s : string) : EmptyString ++ s = s.
Proof. reflexivity. Qed.

Lemma prefix_nil (s : string) : String.prefix EmptyString s = true.
Proof. by destruct s. Qed.

Lemma prefix_app (k b : string) : String.prefix k (k ++ b) = true.
Proof.
  induction k as [|c k IH]; [apply prefix_nil|].
  rewrite append_cons. simpl. destruct (ascii_dec c c); [exact IH | congruence].
Qed.

Lemma contains_prefix (s sub : string) :
  String.prefix sub s = true -> contains s sub = true.
Proof. intros H. destruct s; cbn [contains]; rewrite H; done. Qed.

Lemma contains_app (a k b : string) : contains (a ++ k ++ b) k = true.
Proof.
  induction a as [|c a IH].
  - rewrite append_nil_l. apply contains_prefix, prefix_app.
  - rewrite append_cons. cbn [contains]. rewrite IH. apply orb_true_r.
Qed.

Lemma str_in_spec (x : string) (xs : list string) : str_in x xs = true <-> x ∈ xs.
Proof.
  unfold str_in. rewrite existsb_exists. split.
  - intros (y & Hin & Heq). apply String.eqb_eq in Heq. subst.
    by apply list_elem_of_In.
  - intros Hin. exists x. split; [by apply list_elem_of_In | apply String.eqb_refl].
Qed.

Lemma split_nonempty (sep : ascii) (s : string) : split sep s <> [].
Proof.
  induction s as [|c s IH]; simpl; [done|].
  destruct (Ascii.eqb c sep); [done|]. by destruct (split sep s).
Qed.

Lemma join_split (sep : ascii) (s : string) :
  join (String sep EmptyString) (split sep s) = s.
Proof.
  induction s as [|c s IH]; simpl; [done|].
  pose proof (split_nonempty sep s) as Hne.
  destruct (Ascii.eqb_spec c sep) as [->|Hc].
  - destruct (split sep s) as [|piece pieces]; [done|]. simpl in *. by rewrite IH.
  - destruct (split sep s) as [|piece pieces]; [done|].
    destruct pieces; simpl in *; by rewrite <- IH.
Qed.

Lemma split_pieces_free (sep : ascii) (s piece : string) :
  piece ∈ split sep s -> contains piece (String sep EmptyString) = false.
Proof.
  revert piece. induction s as [|c s IH]; simpl; intros piece Hin.
  - apply list_elem_of_singleton in Hin. by subst.
  - destruct (Ascii.eqb_spec c sep) as [->|Hc].
    + apply elem_of_cons in Hin as [->|Hin]; [done | by apply IH].
    + pose proof (split_nonempty sep s) as Hne.
      destruct (split sep s) as [|p ps]; [done|].
      apply elem_of_cons in Hin as [->|Hin].
      * simpl. destruct (ascii_dec sep c) as [->|_]; [done|].
        simpl. apply IH. by left.
      * apply IH. by right.
Qed.

Lemma startswith_spec (s p : string) :
  startswith s p = true <-> exists rest, s = p ++ rest.
Proof.
  unfold startswith. split.
  - revert s. induction p as [|c p IH]; intros s H.
    + by exists s.
    + destruct s as [|d s]; simpl in H; [done|].
      destruct (ascii_dec c d) as [->|]; [|done].
      destruct (IH s H) as [rest ->]. by exists rest.
  - intros [rest ->]. apply prefix_app.
Qed.

Lemma endswith_spec (s p : string) :
  endswith s p = true <-> exists front, s = front ++ p.
Proof.
  split.
  - induction s as [|c s IH]; cbn [endswith]; intros H.
    + rewrite orb_false_r in H. apply String.eqb_eq in H. by exists EmptyString.
    + apply orb_true_iff in H as [H|H].
      * apply String.eqb_eq in H. by exists EmptyString.
      * destruct (IH H) as [front ->]. by exists (String c front).
  - intros [front ->]. induction front as [|c front IH].
    + rewrite append_nil_l. destruct p; cbn [endswith]; by rewrite String.eqb_refl.
    + rewrite append_cons. cbn [endswith]. rewrite IH. apply orb_true_r.
Qed.

(** A value that starts with an opening and ends with a closing bracket
    is a bracket pair around some text. *)
Lemma bracketed_spec (value : string) :
  startswith value "[" && endswith value "]" = true
  <-> exists body, value = "[" ++ body ++ "]".
Proof.
  rewrite andb_true_iff, startswith_spec, endswith_spec. split.
  - intros [[rest ->] [front Hfront]].
    destruct front as [|c front].
    + rewrite append_nil_l in Hfront. discriminate.
    + rewrite !append_cons, append_nil_l in Hfront.
      injection Hfront as <- ->. by exists front.
  - intros [body ->]. split; [by eexists|].
    exists ("[" ++ body). rewrite !append_cons, !append_nil_l. done.
Qed.

(** ** The field catalogue *)

Lemma dict_lookup_Some_elem {V} (d : list (string * V)) (k : string) (v : V) :
  dict_lookup d k = Some v -> (k, v) ∈ d.
Proof.
  induction d as [|[k' v'] d IH]; simpl; [done|].
  destruct (String.eqb_spec k' k) as [->|Hne].
  - intros [= ->]. by left.
  - intros H. right. by apply IH.
Qed.

Lemma dict_lookup_elem {V} (d : list (string * V)) (k : string) (v : V) :
  NoDup d.*1 -> (k, v) ∈ d -> dict_lookup d k = Some v.
Proof.
  induction d as [|[k' v'] d IH]; simpl; intros Hnd Hin.
  - by apply elem_of_nil in Hin.
  - apply NoDup_cons in Hnd as [Hnotin Hnd].
    apply elem_of_cons in Hin as [[= <- <-]|Hin].
    + by rewrite String.eqb_refl.
    + destruct (String.eqb_spec k' k) as [->|Hne]; [|by apply IH].
      exfalso. apply Hnotin. apply list_elem_of_fmap. by exists (k, v).
Qed.

Lemma fields_elem (cls : settings_class) (items : list (string * ftype))
    (f : string) (info : field_info) :
  (f, info) ∈ _get_fields_info_loop cls items
  <-> f <> "model_config"
      /\ exists t, (f, t) ∈ items /\ info = field_info_of cls f t.
Proof.
  induction items as [|[n t] items IH]; simpl.
  - split; [intros H; by apply elem_of_nil in H|].
    intros (_ & t & H & _). by apply elem_of_nil in H.
  - destruct (String.eqb_spec n "model_config") as [->|Hn].
    + rewrite IH. split; intros (Hf & t' & Hin & ->); (split; [done|]);
        exists t'; (split; [|done]).
      * by right.
      * apply elem_of_cons in Hin as [[= ? ?]|Hin]; [congruence | done].
    + rewrite elem_of_cons, IH. split.
      * intros [[= -> ->]|(Hf & t' & Hin & ->)].
        -- split; [done|]. exists t. split; [by left | done].
        -- split; [done|]. exists t'. split; [by right | done].
      * intros (Hf & t' & Hin & ->).
        apply elem_of_cons in Hin as [[= -> ->]|Hin]; [by left|].
        right. split; [done|]. by exists t'.
Qed.

Lemma fields_keys_subset (cls : settings_class) (items : list (string * ftype))
    (f : string) :
  f ∈ (_get_fields_info_loop cls items).*1 -> f ∈ items.*1.
Proof.
  intros H. apply list_elem_of_fmap in H as [[f' info] [-> H]].
  apply fields_elem in H as (_ & t & H & _).
  apply list_elem_of_fmap. by exists (f', t).
Qed.

Lemma fields_NoDup (cls : settings_class) (items : list (string * ftype)) :
  NoDup items.*1 -> NoDup (_get_fields_info_loop cls items).*1.
Proof.
  induction items as [|[n t] items IH]; simpl; [done|].
  intros [Hnotin Hnd]%NoDup_cons.
  destruct (String.eqb n "model_config"); [by apply IH|].
  simpl. apply NoDup_cons. split; [|by apply IH].
  intros H. apply Hnotin. by eapply fields_keys_subset.
Qed.

(** Every annotated name other than [model_config] is a key of
    [_fields]: the lookups [self._fields[field_name]] cannot fail. *)
Lemma dict_lookup_fields (cls : settings_class) (items : list (string * ftype))
    (f : string) :
  f ∈ items.*1 -> f <> "model_config" ->
  exists t, (f, t) ∈ items
            /\ dict_lookup (_get_fields_info_loop cls items) f
               = Some (field_info_of cls f t).
Proof.
  intros Hin Hf. induction items as [|[n t] items IH]; simpl in *.
  - by apply elem_of_nil in Hin.
  - destruct (String.eqb_spec n "model_config") as [->|Hn].
    + apply elem_of_cons in Hin as [->|Hin]; [done|].
      destruct (IH Hin) as (t' & Ht' & Hl). exists t'. split; [by right | done].
    + simpl. destruct (String.eqb_spec n f) as [->|Hnf].
      * exists t. split; [by left | done].
      * apply elem_of_cons in Hin as [->|Hin]; [done|].
        destruct (IH Hin) as (t' & Ht' & Hl). exists t'. split; [by right | done].
Qed.

(** ** Environment keys *)

Lemma fi_name_field_info_of (cls : settings_class) (f : string) (t : ftype) :
  fi_name (field_info_of cls f t) = external_name cls f.
Proof.
  unfold field_info_of, external_name.
  destruct (class_attrs cls !! f) as [[v|fld]|]; try done.
  simpl. by destruct (field_name_override fld).
Qed.

Lemma _get_env_name_of_info (config : SettingsConfigDict)
    (fields : list (string * field_info)) (f : string) (info : field_info) :
  dict_lookup fields f = Some info ->
  _get_env_name config fields f
  = Ok (env_prefix config
        ++ (if case_sensitive config then fi_name info else upper (fi_name info))).
Proof.
  intros Hl. unfold _get_env_name. rewrite Hl.
  destruct (case_sensitive config), (env_prefix config); done.
Qed.

Lemma _get_env_name_catalogued (cls : settings_class) (f : string) :
  f ∈ (annotations cls).*1 -> f <> "model_config" ->
  _get_env_name (model_config cls) (_get_fields_info cls) f = Ok (env_key cls f).
Proof.
  intros Hin Hf.
  destruct (dict_lookup_fields cls (annotations cls) f Hin Hf) as (t & _ & Hl).
  rewrite (_get_env_name_of_info _ _ _ _ Hl), fi_name_field_info_of. done.
Qed.

(** C4. The environment key of a catalogued field is the policy's prefix,
    unchanged, followed by the field's external name (its declared name
    when no override is set), upper-cased iff the policy is not
    case-sensitive. With prefix [APP_], the field [debug] resolves to
    [APP_DEBUG] when the policy is not case-sensitive and to [APP_debug]
    when it is. *)
Theorem env_key_resolution :
  (forall (cls : settings_class) (f : string),
     f ∈ (annotations cls).*1 -> f <> "model_config" ->
     _get_env_name (model_config cls) (_get_fields_info cls) f
     = Ok (env_prefix (model_config cls)
           ++ (if case_sensitive (model_config cls)
               then external_name cls f
               else upper (external_name cls f))))
  /\ _get_env_name (model_config (debug_settings false))
       (_get_fields_info (debug_settings false)) "debug" = Ok "APP_DEBUG"
  /\ _get_env_name (model_config (debug_settings true))
       (_get_fields_info (debug_settings true)) "debug" = Ok "APP_debug".
Proof.
  split; [|split; reflexivity].
  intros cls f Hin Hf. by rewrite _get_env_name_catalogued.
Qed.

(** ** Coercion of environment strings *)

Lemma truthy_lower (w : string) : w ∈ truthy -> lower w = w.
Proof.
  unfold truthy. rewrite !elem_of_cons.
  intros [->|[->|[->|[->|[->|H]]]]]; try reflexivity. by apply elem_of_nil in H.
Qed.

Lemma all_ascii_complete (a : ascii) : List.In a all_ascii.
Proof.
  rewrite <- (ascii_nat_embedding a). apply List.in_map, List.in_seq.
  pose proof (nat_ascii_bounded a). lia.
Qed.

Lemma same_letter_lower (a b : ascii) :
  same_letter a b = Ascii.eqb (ascii_lower a) (ascii_lower b).
Proof.
  assert (forallb (fun a => forallb (fun b =>
            Bool.eqb (same_letter a b)
              (Ascii.eqb (ascii_lower a) (ascii_lower b))) all_ascii) all_ascii
          = true) as Hall by (vm_compute; reflexivity).
  rewrite forallb_forall in Hall.
  specialize (Hall a (all_ascii_complete a)). rewrite forallb_forall in Hall.
  specialize (Hall b (all_ascii_complete b)). by apply Bool.eqb_prop in Hall.
Qed.

Lemma equal_ignoring_case_lower (s w : string) :
  equal_ignoring_case s w = String.eqb (lower s) (lower w).
Proof.
  revert w. induction s as [|a s IH]; intros [|b w]; simpl; try done.
  by rewrite same_letter_lower, IH.
Qed.

(** C5. Coercion of an environment string to a [bool] field never raises;
    the result is [True] iff the string equals one of [true], [1], [t],
    [y], [yes] up to the case of its letters, and [False] for every other
    string. So [TRUE], [Yes] and [T] give [True]; [no], [0], [on], the
    empty string and [true] with a space before it give [False]. *)
Theorem bool_coercion_total (ext : external) (value : string) :
  (exists b : bool,
     _convert_env_value ext value TBool = Ok (VBool b)
     /\ (b = true <-> exists w, w ∈ truthy /\ lower value = lower w)
     /\ (b = true <-> exists w, w ∈ truthy /\ equal_ignoring_case value w = true))
  /\ _convert_env_value ext "TRUE" TBool = Ok (VBool true)
  /\ _convert_env_value ext "Yes" TBool = Ok (VBool true)
  /\ _convert_env_value ext "T" TBool = Ok (VBool true)
  /\ _convert_env_value ext "tRuE" TBool = Ok (VBool true)
  /\ _convert_env_value ext "1" TBool = Ok (VBool true)
  /\ _convert_env_value ext "Y" TBool = Ok (VBool true)
  /\ _convert_env_value ext "no" TBool = Ok (VBool false)
  /\ _convert_env_value ext "0" TBool = Ok (VBool false)
  /\ _convert_env_value ext "on" TBool = Ok (VBool false)
  /\ _convert_env_value ext "" TBool = Ok (VBool false)
  /\ _convert_env_value ext " true" TBool = Ok (VBool false).
Proof.
  split; [|repeat split; reflexivity].
  exists (str_in (lower value) truthy). split; [reflexivity|].
  assert (str_in (lower value) truthy = true
          <-> exists w, w ∈ truthy /\ lower value = lower w) as Hlower.
  { rewrite str_in_spec. split.
    - intros Hin. exists (lower value). split; [done|].
      symmetry. by apply truthy_lower.
    - intros (w & Hw & ->). by rewrite (truthy_lower w Hw). }
  split; [done|]. rewrite Hlower.
  split; intros (w & Hw & H); exists w; (split; [done|]).
  - rewrite equal_ignoring_case_lower. by apply String.eqb_eq.
  - rewrite equal_ignoring_case_lower in H. by apply String.eqb_eq.
Qed.

Lemma _convert_env_value_sequence (ext : external) (value : string) (t : ftype) :
  sequence_target t ->
  _convert_env_value ext value t
  = if startswith value "[" && endswith value "]"
    then json_decode ext value
    else Ok (VList (VStr <$> split "," value)).
Proof. intros [->|[a ->]]; reflexivity. Qed.

Lemma comma_free (piece : string) :
  contains piece "," = false -> forall a b, piece <> a ++ "," ++ b.
Proof. intros H a b ->. by rewrite contains_app in H. Qed.

Lemma length_split (sep : ascii) (s : string) :
  List.length (split sep s) = S (count_char sep s).
Proof.
  induction s as [|c s IH]; simpl; [done|].
  destruct (Ascii.eqb c sep); simpl; [by rewrite IH|].
  pose proof (split_nonempty sep s) as Hne.
  destruct (split sep s); [done|]. simpl in *. done.
Qed.

(** C6, as amended. For a field declared [list] or [typing.List[...]],
    an environment string that is a bracket pair around some text is
    handed to the JSON decoder, whose outcome is the result; any other
    string is split on commas into its pieces: the comma-free strings
    that, joined by commas, give the string back, one more than there are
    commas. So [1,2,3] yields the three strings [1], [2], [3], the
    bracketed [1,2,3] yields what the decoder makes of it, and the empty
    string yields one empty string. A field declared with the builtin
    generic [list[...]] or as [Optional[List[...]]] is not taken for a
    sequence: its string is returned as it is. *)
Theorem sequence_coercion (ext : external) (t : ftype) :
  sequence_target t ->
  (forall value body,
     value = "[" ++ body ++ "]" ->
     _convert_env_value ext value t = json_decode ext value)
  /\ (forall value,
        (forall body, value <> "[" ++ body ++ "]") ->
        exists pieces,
          _convert_env_value ext value t = Ok (VList (VStr <$> pieces))
          /\ join "," pieces = value
          /\ (forall piece, piece ∈ pieces -> forall a b, piece <> a ++ "," ++ b)
          /\ pieces <> []
          /\ List.length pieces = S (count_char "," value))
  /\ _convert_env_value ext "1,2,3" t = Ok (VList [VStr "1"; VStr "2"; VStr "3"])
  /\ _convert_env_value ext "[1,2,3]" t = json_decode ext "[1,2,3]"
  /\ _convert_env_value ext "[]" t = json_decode ext "[]"
  /\ _convert_env_value ext "" t = Ok (VList [VStr ""])
  /\ _convert_env_value ext "[1,2" t = Ok (VList [VStr "[1"; VStr "2"])
  /\ _convert_env_value ext "1,2]" t = Ok (VList [VStr "1"; VStr "2]"])
  /\ (forall value elem,
        _convert_env_value ext value (TGenericList elem) = Ok (VStr value)
        /\ _convert_env_value ext value (TOptional (TTypingList elem))
           = Ok (VStr value)).
Proof.
  intros Ht. split; [|split].
  - intros value body Hvalue. rewrite _convert_env_value_sequence by done.
    assert (startswith value "[" && endswith value "]" = true) as ->; [|done].
    apply bracketed_spec. by exists body.
  - intros value Hvalue. exists (split "," value).
    rewrite _convert_env_value_sequence by done.
    assert (startswith value "[" && endswith value "]" = false) as ->.
    { apply not_true_is_false. intros [body Hbody]%bracketed_spec.
      by apply (Hvalue body). }
    split; [done|]. split; [apply join_split|]. split; [|split].
    + intros piece Hpiece. by apply comma_free, (split_pieces_free "," value).
    + apply split_nonempty.
    + apply length_split.
  - rewrite !_convert_env_value_sequence by done.
    repeat split; reflexivity.
Qed.

Lemma sequence_coercion_witness :
  _convert_env_value Reference.runtime "1,2,3" (TTypingList TStr)
  = Ok (VList [VStr "1"; VStr "2"; VStr "3"]).
Proof.
  exact (proj1 (proj2 (proj2
    (sequence_coercion Reference.runtime (TTypingList TStr)
       (or_intror (ex_intro _ TStr eq_refl)))))).
Defined.

(** C6, counterexample. A field declared [list[str]] is list-typed, but
    its variable [1,2,3] is not split: the string comes back as it is. *)
Lemma generic_list_not_split :
  _convert_env_value Reference.runtime "1,2,3" (TGenericList TStr)
  = Ok (VStr "1,2,3")
  /\ _convert_env_value Reference.runtime "1,2,3" (TGenericList TStr)
     <> Ok (VList [VStr "1"; VStr "2"; VStr "3"]).
Proof. split; [reflexivity | discriminate]. Qed.

Lemma env_key_resolution_witness :
  _get_env_name (model_config (debug_settings false))
    (_get_fields_info (debug_settings false)) "debug"
  = Ok ("APP_" ++ upper "debug").
Proof.
  apply (proj1 env_key_resolution (debug_settings false) "debug").
  - simpl. apply list_elem_of_singleton. reflexivity.
  - discriminate.
Defined.

(** ** Reading the environment *)

Section Construction.

Variable ext : external.

Section EnvironmentReader.

Variable config : SettingsConfigDict.
Variable fields : list (string * field_info).
Variable environ : gmap string string.

Abbreviation env_loop := (_get_env_vars_loop ext config fields environ).
Abbreviation env_fails := (env_failure ext config fields environ).

Lemma env_loop_app (pre post : list (string * ftype)) (acc : gmap string pyval) :
  env_loop (pre ++ post) acc
  = obind (env_loop pre acc) (fun acc' => env_loop post acc').
Proof.
  revert acc. induction pre as [|[n t] pre IH]; intros acc; simpl; [done|].
  destruct (String.eqb n "model_config"); [apply IH|].
  destruct (_get_env_name config fields n) as [key|e]; simpl; [|done].
  destruct (environ !! key) as [raw|]; [|apply IH].
  destruct (_convert_env_value ext raw t); [apply IH | done].
Qed.

(** A name the loop does not visit keeps its entry. *)
Lemma env_loop_other (items : list (string * ftype))
    (acc env_vars : gmap string pyval) (f : string) :
  env_loop items acc = Ok env_vars -> f ∉ items.*1 ->
  env_vars !! f = acc !! f.
Proof.
  revert acc. induction items as [|[n t] items IH]; intros acc; simpl.
  - by intros [= ->].
  - intros H Hnotin. apply not_elem_of_cons in Hnotin as [Hne Hnotin].
    destruct (String.eqb n "model_config"); [by apply IH|].
    destruct (_get_env_name config fields n) as [key|e]; simpl in H; [|done].
    destruct (environ !! key) as [raw|]; [|by apply IH].
    destruct (_convert_env_value ext raw t) as [v|e]; [|done].
    rewrite (IH _ H Hnotin). by rewrite lookup_insert_ne.
Qed.

(** What a successful pass leaves for a visited field: the coerced
    value of its variable when the variable is set, nothing new
    otherwise. *)
Lemma env_loop_elem (items : list (string * ftype))
    (acc env_vars : gmap string pyval) (f : string) (t : ftype) :
  env_loop items acc = Ok env_vars -> NoDup items.*1 ->
  (f, t) ∈ items -> f <> "model_config" ->
  exists key, _get_env_name config fields f = Ok key
    /\ match environ !! key with
       | Some raw => exists v, _convert_env_value ext raw t = Ok v
                               /\ env_vars !! f = Some v
       | None => env_vars !! f = acc !! f
       end.
Proof.
  revert acc. induction items as [|[n t'] items IH]; intros acc; simpl.
  - intros _ _ Hin. by apply elem_of_nil in Hin.
  - intros H [Hnotin Hnd]%NoDup_cons Hin Hf.
    apply elem_of_cons in Hin as [[= <- <-]|Hin].
    + destruct (String.eqb_spec f "model_config") as [|_]; [done|].
      destruct (_get_env_name config fields f) as [key|e]; simpl in H; [|done].
      exists key. split; [done|].
      destruct (environ !! key) as [raw|].
      * destruct (_convert_env_value ext raw t) as [v|e]; [|done].
        exists v. split; [done|].
        rewrite (env_loop_other _ _ _ _ H Hnotin). apply lookup_insert_eq.
      * apply (env_loop_other _ _ _ _ H Hnotin).
    + assert (n <> f) as Hnf.
      { intros ->. apply Hnotin, list_elem_of_fmap. by exists (f, t). }
      destruct (String.eqb n "model_config"); [by apply IH|].
      destruct (_get_env_name config fields n) as [key'|e]; simpl in H; [|done].
      destruct (environ !! key') as [raw'|]; [|by apply IH].
      destruct (_convert_env_value ext raw' t') as [v'|e]; [|done].
      destruct (IH _ H Hnd Hin Hf) as (key & Hkey & Hres).
      exists key. split; [done|].
      destruct (environ !! key); [done|]. by rewrite Hres, lookup_insert_ne.
Qed.

Lemma env_failure_cons (item : string * ftype) (items : list (string * ftype))
    (err : exn) :
  env_fails items err -> env_fails (item :: items) err.
Proof.
  intros (f & t & key & raw & e & Hin & H).
  exists f, t, key, raw, e. split; [by right | done].
Qed.

(** A variable that fails coercion makes the pass fail, on the first
    failing variable in annotation order. *)
Lemma env_loop_abort (items : list (string * ftype)) (acc : gmap string pyval)
    (f : string) (t : ftype) (key raw : string) (e : exn) :
  (forall n, n ∈ items.*1 -> n <> "model_config" ->
             succeeds (_get_env_name config fields n)) ->
  (f, t) ∈ items -> f <> "model_config" ->
  _get_env_name config fields f = Ok key ->
  environ !! key = Some raw ->
  _convert_env_value ext raw t = Raise e ->
  exists err, env_loop items acc = Raise err /\ env_fails items err.
Proof.
  intros Hnames Hin Hf Hkey Hraw Hconv. revert acc Hnames Hin.
  induction items as [|[n t'] items IH]; intros acc Hnames Hin.
  - by apply elem_of_nil in Hin.
  - assert (forall acc', exists err,
              env_loop items acc' = Raise err /\ env_fails ((n, t') :: items) err
              \/ (n, t') = (f, t)) as Hrest.
    { intros acc'. apply elem_of_cons in Hin as [Heq|Hin]; [by exists e; right|].
      destruct (IH acc') as (err & Herr & Hfail); [|done|].
      - intros m Hm. apply Hnames. by right.
      - exists err. left. split; [done | by apply env_failure_cons]. }
    simpl. destruct (String.eqb_spec n "model_config") as [->|Hn].
    + destruct (Hrest acc) as (err & [[Herr Hfail]|[= <- _]]); [|done].
      by exists err.
    + destruct (Hnames n) as [key' Hkey']; [by left | done |].
      rewrite Hkey'. simpl.
      destruct (environ !! key') as [raw'|] eqn:Hraw'.
      * destruct (_convert_env_value ext raw' t') as [v'|e'] eqn:Hconv'.
        -- destruct (Hrest (<[n := v']> acc)) as (err & [[Herr Hfail]|[= -> ->]]).
           ++ by exists err.
           ++ congruence.
        -- exists (env_parse_error key' e'). split; [done|].
           exists n, t', key', raw', e'. split; [by left | done].
      * destruct (Hrest acc) as (err & [[Herr Hfail]|[= -> ->]]).
        -- by exists err.
        -- congruence.
Qed.

End EnvironmentReader.

(** ** Selecting, validating and assigning *)

Lemma is_None_true (v : pyval) : is_None v = true <-> v = VNone.
Proof. by destruct v. Qed.

Lemma is_None_false (v : pyval) : is_None v = false <-> v <> VNone.
Proof. by destruct v. Qed.

Section Merger.

Variable fields : list (string * field_info).

(** The step for one field, by the value selected. *)
Lemma set_field_selected (values attrs : gmap string pyval) (f : string)
    (info : field_info) :
  set_field ext fields values attrs f info
  = obind (selected_value fields values f) (fun sel =>
      if is_None sel
      then if required info then Raise (missing_required f) else Ok attrs
      else match convert ext sel (fi_type info) with
           | Ok w => Ok (<[f := w]> attrs)
           | Raise e => Raise (validation_error f e)
           end).
Proof.
  unfold set_field, selected_value, required.
  destruct (if is_None (default VNone (values !! f)) then _ else _) as [sel|e];
    simpl; [|done].
  by destruct (is_None sel).
Qed.

Lemma set_field_frame (values attrs attrs' : gmap string pyval) (n f : string)
    (info : field_info) :
  set_field ext fields values attrs n info = Ok attrs' -> n <> f ->
  attrs' !! f = attrs !! f.
Proof.
  rewrite set_field_selected. intros H Hne.
  destruct (selected_value fields values n) as [sel|e]; simpl in H; [|done].
  destruct (is_None sel).
  - destruct (required info); [done|]. by injection H as <-.
  - destruct (convert ext sel (fi_type info)); [|done].
    injection H as <-. by rewrite lookup_insert_ne.
Qed.

Lemma set_fields_app (values : gmap string pyval)
    (pre post : list (string * field_info)) (attrs : gmap string pyval) :
  set_fields ext fields values (pre ++ post) attrs
  = obind (set_fields ext fields values pre attrs)
      (fun attrs' => set_fields ext fields values post attrs').
Proof.
  revert attrs. induction pre as [|[n info] pre IH]; intros attrs; simpl; [done|].
  destruct (set_field ext fields values attrs n info); simpl; [apply IH | done].
Qed.

Lemma set_fields_frame (values : gmap string pyval)
    (items : list (string * field_info)) (attrs attrs' : gmap string pyval)
    (f : string) :
  set_fields ext fields values items attrs = Ok attrs' -> f ∉ items.*1 ->
  attrs' !! f = attrs !! f.
Proof.
  revert attrs. induction items as [|[n info] items IH]; intros attrs; simpl.
  - by intros [= ->].
  - intros H [Hne Hnotin]%not_elem_of_cons.
    destruct (set_field ext fields values attrs n info) as [a|e] eqn:Hstep;
      simpl in H; [|done].
    rewrite (IH _ H Hnotin). eapply set_field_frame; [done | congruence].
Qed.

(** The step of a field of a successful pass succeeded, and later steps
    left its attribute alone. *)
Lemma set_fields_elem (values : gmap string pyval)
    (items : list (string * field_info)) (attrs attrs' : gmap string pyval)
    (f : string) (info : field_info) :
  NoDup items.*1 -> (f, info) ∈ items ->
  set_fields ext fields values items attrs = Ok attrs' ->
  exists before after,
    set_field ext fields values before f info = Ok after
    /\ before !! f = attrs !! f
    /\ attrs' !! f = after !! f.
Proof.
  revert attrs. induction items as [|[n info'] items IH]; intros attrs Hnd Hin H.
  - by apply elem_of_nil in Hin.
  - apply NoDup_cons in Hnd as [Hnotin Hnd]. simpl in H.
    destruct (set_field ext fields values attrs n info') as [a|e] eqn:Hstep;
      simpl in H; [|done].
    apply elem_of_cons in Hin as [[= <- <-]|Hin].
    + exists attrs, a. split; [done|]. split; [done|].
      by apply (set_fields_frame _ _ _ _ _ H).
    + destruct (IH _ Hnd Hin H) as (before & after & Hs & Hb & Ha).
      exists before, after. split; [done|]. split; [|done].
      rewrite Hb. eapply set_field_frame; [done|].
      intros ->. apply Hnotin, list_elem_of_fmap. by exists (f, info).
Qed.

(** A field whose step raises whatever has been assigned makes the pass
    fail. *)
Lemma set_fields_abort (values : gmap string pyval)
    (items : list (string * field_info)) (attrs : gmap string pyval)
    (f : string) (info : field_info) :
  (forall a, aborts (set_field ext fields values a f info)) ->
  (f, info) ∈ items ->
  aborts (set_fields ext fields values items attrs).
Proof.
  intros Hstep. revert attrs.
  induction items as [|[n info'] items IH]; intros attrs Hin.
  - by apply elem_of_nil in Hin.
  - simpl. apply elem_of_cons in Hin as [[= <- <-]|Hin].
    + destruct (Hstep attrs) as [e ->]. by exists e.
    + destruct (set_field ext fields values attrs n info') as [a|e]; simpl.
      * by apply IH.
      * by exists e.
Qed.

(** The pass reads the merged values only through [values.get]. *)
Lemma set_fields_ext (values1 values2 : gmap string pyval)
    (items : list (string * field_info)) (attrs : gmap string pyval) :
  (forall k, default VNone (values1 !! k) = default VNone (values2 !! k)) ->
  set_fields ext fields values1 items attrs
  = set_fields ext fields values2 items attrs.
Proof.
  intros Hget. revert attrs.
  induction items as [|[n info] items IH]; intros attrs; simpl; [done|].
  assert (set_field ext fields values1 attrs n info
          = set_field ext fields values2 attrs n info) as ->.
  { unfold set_field. by rewrite Hget. }
  destruct (set_field ext fields values2 attrs n info); simpl; [apply IH | done].
Qed.

(** The attribute a successful pass leaves for a catalogued field. *)
Lemma set_fields_resolved (values : gmap string pyval) (attrs' : gmap string pyval)
    (f : string) (info : field_info) :
  NoDup fields.*1 -> (f, info) ∈ fields ->
  set_fields ext fields values fields ∅ = Ok attrs' ->
  exists sel,
    selected_value fields values f = Ok sel
    /\ (sel <> VNone ->
        exists w, convert ext sel (fi_type info) = Ok w /\ attrs' !! f = Some w)
    /\ (sel = VNone -> required info = false /\ attrs' !! f = None).
Proof.
  intros Hnd Hin H.
  destruct (set_fields_elem _ _ _ _ _ _ Hnd Hin H)
    as (before & after & Hstep & Hbefore & Hafter).
  rewrite lookup_empty in Hbefore. rewrite set_field_selected in Hstep.
  destruct (selected_value fields values f) as [sel|e]; simpl in Hstep; [|done].
  exists sel. split; [done|].
  destruct (is_None sel) eqn:Hsel.
  - apply is_None_true in Hsel as ->. split; [done|]. intros _.
    destruct (required info); [done|]. injection Hstep as <-.
    split; [done | congruence].
  - apply is_None_false in Hsel. split; [|done]. intros _.
    destruct (convert ext sel (fi_type info)) as [w|e]; [|done].
    injection Hstep as <-. exists w. split; [done|].
    by rewrite Hafter, lookup_insert_eq.
Qed.

End Merger.

(** ** Construction as a whole *)

Lemma __init___inv (cls : settings_class) (environ : gmap string string)
    (values : gmap string pyval) (inst : instance) :
  __init__ ext cls environ values = Ok inst ->
  exists env_vars,
    _get_env_vars ext cls (_get_fields_info cls) environ = Ok env_vars
    /\ set_fields ext (_get_fields_info cls) (merge_values values env_vars)
         (_get_fields_info cls) ∅ = Ok (attrs inst)
    /\ _generate_schema ext (_get_fields_info cls) = Ok (_schema inst).
Proof.
  unfold __init__, _validate_and_set_values. intros H.
  destruct (_get_env_vars ext cls (_get_fields_info cls) environ) as [env_vars|e];
    simpl in H; [|done].
  exists env_vars. split; [done|].
  destruct (set_fields ext _ _ _ ∅) as [a|e]; simpl in H; [|done].
  destruct (_generate_schema ext _) as [s|e]; simpl in H; [|done].
  by injection H as <-.
Qed.

(** What a successful reading of the environment holds for a catalogued
    field. *)
Lemma _get_env_vars_lookup (cls : settings_class) (environ : gmap string string)
    (env_vars : gmap string pyval) (f : string) (info : field_info) :
  wf_class cls -> (f, info) ∈ _get_fields_info cls ->
  _get_env_vars ext cls (_get_fields_info cls) environ = Ok env_vars ->
  match environ !! env_key cls f with
  | Some raw => exists v, _convert_env_value ext raw (fi_type info) = Ok v
                          /\ env_vars !! f = Some v
  | None => env_vars !! f = None
  end.
Proof.
  intros Hwf Hin H. apply fields_elem in Hin as (Hf & t & Hin & ->).
  destruct (env_loop_elem _ _ _ _ _ _ f t H Hwf Hin Hf) as (key & Hkey & Hres).
  rewrite _get_env_name_catalogued in Hkey.
  - injection Hkey as <-.
    replace (fi_type (field_info_of cls f t)) with t; [done|].
    unfold field_info_of. by destruct (class_attrs cls !! f) as [[|]|].
  - apply list_elem_of_fmap. by exists (f, t).
  - done.
Qed.

End Construction.

Lemma field_info_flags (cls : settings_class) (f : string) (info : field_info) :
  (f, info) ∈ _get_fields_info cls ->
  fi_has_default_factory info = bool_decide (is_Some (fi_default_factory info))
  /\ (fi_has_default info = false -> fi_default info = VNone).
Proof.
  intros (_ & t & _ & ->)%fields_elem. unfold field_info_of.
  destruct (class_attrs cls !! f) as [[v|fld]|]; simpl; try done.
  split; [done|]. intros H. apply bool_decide_eq_false in H.
  destruct (field_default fld); [|done]. exfalso. by apply H.
Qed.

Lemma merge_values_lookup (values env_vars : gmap string pyval) (k : string) :
  merge_values values env_vars !! k
  = match env_vars !! k with Some v => Some v | None => values !! k end.
Proof.
  unfold merge_values. destruct (env_vars !! k) as [v|] eqn:H.
  - by apply lookup_union_Some_l.
  - by rewrite lookup_union_r.
Qed.

(** The attribute construction leaves for a catalogued field, by the
    value selected from the merged sources. *)
Lemma resolved_attribute (ext : external) (cls : settings_class)
    (environ : gmap string string) (values : gmap string pyval)
    (inst : instance) (f : string) (info : field_info) :
  wf_class cls -> (f, info) ∈ _get_fields_info cls ->
  __init__ ext cls environ values = Ok inst ->
  exists env_vars sel,
    _get_env_vars ext cls (_get_fields_info cls) environ = Ok env_vars
    /\ selected_value (_get_fields_info cls) (merge_values values env_vars) f = Ok sel
    /\ (sel <> VNone ->
        exists w, convert ext sel (fi_type info) = Ok w /\ attrs inst !! f = Some w)
    /\ (sel = VNone -> required info = false /\ attrs inst !! f = None).
Proof.
  intros Hwf Hin Hinit.
  apply __init___inv in Hinit as (env_vars & Henv & Hset & _).
  destruct (set_fields_resolved ext _ _ _ f info (fields_NoDup cls _ Hwf) Hin Hset)
    as (sel & Hsel & Hres).
  by exists env_vars, sel.
Qed.

(** The default the merger falls back on: the factory's product when
    there is a factory, the fixed default otherwise. *)
Lemma _get_field_default_catalogued (cls : settings_class) (f : string)
    (info : field_info) :
  wf_class cls -> (f, info) ∈ _get_fields_info cls ->
  _get_field_default (_get_fields_info cls) f
  = match fi_default_factory info with
    | Some factory => factory tt
    | None => Ok (fi_default info)
    end.
Proof.
  intros Hwf Hin. unfold _get_field_default.
  rewrite (dict_lookup_elem (_get_fields_info cls) f info
             (fields_NoDup cls _ Hwf) Hin).
  destruct (field_info_flags cls f info Hin) as [-> Hdef].
  destruct (fi_default_factory info) as [factory|]; simpl; [done|].
  destruct (fi_has_default info); [done|]. by rewrite Hdef.
Qed.

(** ** Precedence *)

(** C1, as amended. For a catalogued field of a successful construction:
    the value its environment variable coerces to (when not [None]) is
    the one validated and assigned, whether or not an explicit argument
    was given; the explicit argument is used when the variable is not
    set; with neither, the product of the default factory, and without a
    factory the fixed default. The order is environment value > explicit
    argument > default-factory result > fixed default. *)
Theorem value_precedence (ext : external) (cls : settings_class)
    (environ : gmap string string) (values : gmap string pyval)
    (inst : instance) (f : string) (info : field_info) :
  wf_class cls -> (f, info) ∈ _get_fields_info cls ->
  __init__ ext cls environ values = Ok inst ->
  (forall raw v,
     environ !! env_key cls f = Some raw ->
     _convert_env_value ext raw (fi_type info) = Ok v -> v <> VNone ->
     exists w, convert ext v (fi_type info) = Ok w /\ attrs inst !! f = Some w)
  /\ (forall v,
        environ !! env_key cls f = None ->
        values !! f = Some v -> v <> VNone ->
        exists w, convert ext v (fi_type info) = Ok w /\ attrs inst !! f = Some w)
  /\ (forall factory d,
        environ !! env_key cls f = None ->
        default VNone (values !! f) = VNone ->
        fi_default_factory info = Some factory ->
        factory tt = Ok d -> d <> VNone ->
        exists w, convert ext d (fi_type info) = Ok w /\ attrs inst !! f = Some w)
  /\ (environ !! env_key cls f = None ->
      default VNone (values !! f) = VNone ->
      fi_default_factory info = None ->
      fi_default info <> VNone ->
      exists w, convert ext (fi_default info) (fi_type info) = Ok w
                /\ attrs inst !! f = Some w).
Proof.
  intros Hwf Hin Hinit.
  destruct (resolved_attribute ext cls environ values inst f info Hwf Hin Hinit)
    as (env_vars & sel & Henv & Hsel & Hsome & _).
  pose proof (_get_env_vars_lookup ext cls environ env_vars f info Hwf Hin Henv)
    as Hlook.
  unfold selected_value in Hsel. rewrite merge_values_lookup in Hsel.
  rewrite (_get_field_default_catalogued cls f info Hwf Hin) in Hsel.
  repeat split.
  - intros raw v Hraw Hconv Hv. rewrite Hraw in Hlook.
    destruct Hlook as (v' & Hconv' & Hv'). rewrite Hconv in Hconv'.
    injection Hconv' as <-. rewrite Hv' in Hsel. simpl in Hsel.
    apply is_None_false in Hv. rewrite Hv in Hsel. injection Hsel as <-.
    apply Hsome. by apply is_None_false.
  - intros v Hraw Hval Hv. rewrite Hraw in Hlook. rewrite Hlook, Hval in Hsel.
    simpl in Hsel. apply is_None_false in Hv. rewrite Hv in Hsel.
    injection Hsel as <-. apply Hsome. by apply is_None_false.
  - intros factory d Hraw Hval Hfac Hd Hne. rewrite Hraw in Hlook.
    rewrite Hlook, Hval, Hfac, Hd in Hsel. simpl in Hsel.
    injection Hsel as <-. by apply Hsome.
  - intros Hraw Hval Hfac Hne. rewrite Hraw in Hlook.
    rewrite Hlook, Hval, Hfac in Hsel. simpl in Hsel.
    injection Hsel as <-. by apply Hsome.
Qed.

(** C3, as amended. For a catalogued field of a successful construction
    there is a selected value. When it is not [None] (an empty list made
    by a default factory is such a value) it is validated against the
    declared type and the result assigned. When it is [None] (nothing was
    supplied, or the default or the factory gave [None]) the field is
    optional and is left unset. *)
Theorem selected_value_assigned (ext : external) (cls : settings_class)
    (environ : gmap string string) (values : gmap string pyval)
    (inst : instance) (f : string) (info : field_info) :
  wf_class cls -> (f, info) ∈ _get_fields_info cls ->
  __init__ ext cls environ values = Ok inst ->
  (exists env_vars sel,
     _get_env_vars ext cls (_get_fields_info cls) environ = Ok env_vars
     /\ selected_value (_get_fields_info cls) (merge_values values env_vars) f = Ok sel
     /\ (sel <> VNone ->
         exists w, convert ext sel (fi_type info) = Ok w
                   /\ attrs inst !! f = Some w)
     /\ (sel = VNone -> required info = false /\ attrs inst !! f = None))
  /\ (forall factory,
        environ !! env_key cls f = None ->
        default VNone (values !! f) = VNone ->
        fi_default_factory info = Some factory ->
        (factory tt = Ok (VList []) ->
         exists w, convert ext (VList []) (fi_type info) = Ok w
                   /\ attrs inst !! f = Some w)
        /\ (factory tt = Ok VNone -> attrs inst !! f = None)).
Proof.
  intros Hwf Hin Hinit.
  destruct (resolved_attribute ext cls environ values inst f info Hwf Hin Hinit)
    as (env_vars & sel & Henv & Hsel & Hsome & Hnone).
  split; [by exists env_vars, sel|].
  intros factory Hraw Hval Hfac.
  pose proof (_get_env_vars_lookup ext cls environ env_vars f info Hwf Hin Henv)
    as Hlook.
  rewrite Hraw in Hlook.
  unfold selected_value in Hsel.
  rewrite merge_values_lookup, Hlook, Hval in Hsel. simpl in Hsel.
  rewrite (_get_field_default_catalogued cls f info Hwf Hin), Hfac in Hsel.
  split; intros Hd; rewrite Hd in Hsel; injection Hsel as <-.
  - by apply Hsome.
  - by apply Hnone.
Qed.

(** ** Required fields *)

(** The step of a required field that no source supplies raises the
    missing-field error, whatever the validator would make of [None]. *)
Lemma set_field_missing (ext : external) (cls : settings_class)
    (values attrs : gmap string pyval) (f : string) (info : field_info) :
  wf_class cls -> (f, info) ∈ _get_fields_info cls ->
  required info = true ->
  default VNone (values !! f) = VNone ->
  set_field ext (_get_fields_info cls) values attrs f info
  = Raise (missing_required f).
Proof.
  intros Hwf Hin Hreq Hval. rewrite set_field_selected.
  unfold selected_value. rewrite Hval. simpl.
  rewrite (_get_field_default_catalogued cls f info Hwf Hin).
  destruct (field_info_flags cls f info Hin) as [Hflag Hdef].
  unfold required in Hreq. apply andb_true_iff in Hreq as [Hd Hf].
  apply negb_true_iff in Hd, Hf. rewrite Hf in Hflag.
  symmetry in Hflag. apply bool_decide_eq_false in Hflag.
  destruct (fi_default_factory info) as [factory|]; [exfalso; by apply Hflag|].
  simpl. rewrite (Hdef Hd). simpl. unfold required. by rewrite Hd, Hf.
Qed.

(** Construction of a class with a required field that the merged
    sources do not supply: it aborts, and on that field's error when the
    environment was read and the fields before it were assigned. *)
Lemma __init___missing (ext : external) (cls : settings_class)
    (environ : gmap string string) (values : gmap string pyval)
    (pre post : list (string * field_info)) (f : string) (info : field_info) :
  wf_class cls ->
  _get_fields_info cls = (pre ++ (f, info) :: post)%list ->
  required info = true ->
  environ !! env_key cls f = None ->
  default VNone (values !! f) = VNone ->
  aborts (__init__ ext cls environ values)
  /\ (forall env_vars attrs0,
        _get_env_vars ext cls (_get_fields_info cls) environ = Ok env_vars ->
        set_fields ext (_get_fields_info cls) (merge_values values env_vars)
          pre ∅ = Ok attrs0 ->
        __init__ ext cls environ values = Raise (missing_required f)).
Proof.
  intros Hwf Hfields Hreq Hraw Hval.
  assert ((f, info) ∈ _get_fields_info cls) as Hin.
  { rewrite Hfields. apply elem_of_app. right. by left. }
  assert (forall env_vars,
            _get_env_vars ext cls (_get_fields_info cls) environ = Ok env_vars ->
            forall a, set_field ext (_get_fields_info cls)
                        (merge_values values env_vars) a f info
                      = Raise (missing_required f)) as Hstep.
  { intros env_vars Henv a. apply set_field_missing; try done.
    pose proof (_get_env_vars_lookup ext cls environ env_vars f info Hwf Hin Henv)
      as Hlook.
    rewrite Hraw in Hlook. by rewrite merge_values_lookup, Hlook. }
  unfold __init__, _validate_and_set_values. split.
  - destruct (_get_env_vars ext cls (_get_fields_info cls) environ)
      as [env_vars|e] eqn:Henv; simpl; [|by exists e].
    destruct (set_fields_abort ext (_get_fields_info cls)
                (merge_values values env_vars) (_get_fields_info cls) ∅ f info)
      as [e He]; [|done|].
    + intros a. exists (missing_required f). by apply Hstep.
    + rewrite He. by exists e.
  - intros env_vars attrs0 Henv Hpre. rewrite Henv. simpl.
    rewrite Hfields at 2. rewrite set_fields_app, Hpre. simpl.
    by rewrite (Hstep env_vars Henv).
Qed.

(** C2, as amended. When a field has neither a default nor a default
    factory and neither an explicit argument nor an environment variable
    supplies it, construction aborts. The error is the missing-field
    error naming that field when the environment was read without error
    and every field before it in catalogue order was assigned: the first
    failure in catalogue order is the one reported. *)
Theorem missing_required_field (ext : external) (cls : settings_class)
    (environ : gmap string string) (values : gmap string pyval)
    (pre post : list (string * field_info)) (f : string) (info : field_info) :
  wf_class cls ->
  _get_fields_info cls = (pre ++ (f, info) :: post)%list ->
  fi_has_default info = false -> fi_has_default_factory info = false ->
  environ !! env_key cls f = None ->
  values !! f = None ->
  aborts (__init__ ext cls environ values)
  /\ (forall env_vars attrs0,
        _get_env_vars ext cls (_get_fields_info cls) environ = Ok env_vars ->
        set_fields ext (_get_fields_info cls) (merge_values values env_vars)
          pre ∅ = Ok attrs0 ->
        __init__ ext cls environ values
        = Raise (ValueError ("Missing required field: " ++ f)))
  /\ contains ("Missing required field: " ++ f) f = true.
Proof.
  intros Hwf Hfields Hd Hf Hraw Hval.
  destruct (__init___missing ext cls environ values pre post f info)
    as [Habort Hfirst]; try done.
  - unfold required. by rewrite Hd, Hf.
  - by rewrite Hval.
  - split; [done|]. split; [done|].
    pose proof (contains_app "Missing required field: " f EmptyString) as H.
    replace (f ++ EmptyString) with f in H; [done|].
    clear. induction f as [|c f IH]; [done|]. by rewrite append_cons, <- IH.
Qed.

(** ** An explicit [None] *)

Lemma merge_values_None (values env_vars : gmap string pyval) (f k : string) :
  default VNone (merge_values (<[f := VNone]> values) env_vars !! k)
  = default VNone (merge_values (delete f values) env_vars !! k).
Proof.
  rewrite !merge_values_lookup. destruct (env_vars !! k); [done|].
  destruct (decide (f = k)) as [->|Hne].
  - by rewrite lookup_insert_eq, lookup_delete_eq.
  - by rewrite lookup_insert_ne, lookup_delete_ne.
Qed.

(** C10, as amended. An explicit argument of [None] for a field is
    treated as no argument: construction gives the same outcome as
    without it. So, when the environment does not supply the field
    either, a successful construction has taken the field's default: the
    product of its default factory or, without a factory, its fixed
    default (validated and assigned unless it is [None]). A field with
    neither makes construction abort without [None] being validated; the
    error is the missing-field error naming the field when the
    environment was read and the fields before it were assigned, the
    first failure in catalogue order being the one reported. *)
Theorem explicit_None_is_absent (ext : external) (cls : settings_class)
    (environ : gmap string string) (values : gmap string pyval) (f : string) :
  __init__ ext cls environ (<[f := VNone]> values)
  = __init__ ext cls environ (delete f values)
  /\ (forall info,
        wf_class cls -> (f, info) ∈ _get_fields_info cls ->
        environ !! env_key cls f = None ->
        (forall inst,
           __init__ ext cls environ (<[f := VNone]> values) = Ok inst ->
           (forall factory,
              fi_default_factory info = Some factory ->
              exists d,
                factory tt = Ok d
                /\ (d <> VNone ->
                    exists w, convert ext d (fi_type info) = Ok w
                              /\ attrs inst !! f = Some w)
                /\ (d = VNone -> attrs inst !! f = None))
           /\ (fi_default_factory info = None ->
               (fi_default info <> VNone ->
                exists w, convert ext (fi_default info) (fi_type info) = Ok w
                          /\ attrs inst !! f = Some w)
               /\ (fi_default info = VNone -> attrs inst !! f = None)))
        /\ (fi_has_default info = false -> fi_has_default_factory info = false ->
            aborts (__init__ ext cls environ (<[f := VNone]> values))
            /\ forall pre post env_vars attrs0,
                 _get_fields_info cls = (pre ++ (f, info) :: post)%list ->
                 _get_env_vars ext cls (_get_fields_info cls) environ = Ok env_vars ->
                 set_fields ext (_get_fields_info cls)
                   (merge_values (<[f := VNone]> values) env_vars) pre ∅
                 = Ok attrs0 ->
                 __init__ ext cls environ (<[f := VNone]> values)
                 = Raise (ValueError ("Missing required field: " ++ f)))).
Proof.
  split.
  - unfold __init__, _validate_and_set_values.
    destruct (_get_env_vars ext cls (_get_fields_info cls) environ)
      as [env_vars|e]; simpl; [|done].
    rewrite (set_fields_ext ext _ _ (merge_values (delete f values) env_vars));
      [done|].
    intros k. apply merge_values_None.
  - intros info Hwf Hin Hraw. split.
    + intros inst Hinit.
      destruct (resolved_attribute ext cls environ _ inst f info Hwf Hin Hinit)
        as (env_vars & sel & Henv & Hsel & Hsome & Hnone).
      pose proof (_get_env_vars_lookup ext cls environ env_vars f info Hwf Hin Henv)
        as Hlook.
      rewrite Hraw in Hlook. unfold selected_value in Hsel.
      rewrite merge_values_lookup, Hlook, lookup_insert_eq in Hsel. simpl in Hsel.
      rewrite (_get_field_default_catalogued cls f info Hwf Hin) in Hsel.
      split.
      * intros factory Hfac. rewrite Hfac in Hsel. exists sel.
        split; [done|]. split; [done|]. intros H. by apply Hnone.
      * intros Hfac. rewrite Hfac in Hsel. injection Hsel as <-.
        split; [done|]. intros H. by apply Hnone.
    + intros Hd Hf.
      assert (required info = true) as Hreq by (unfold required; by rewrite Hd, Hf).
      pose proof (list_elem_of_split _ _ Hin) as Hsplit.
      destruct Hsplit as (pre0 & post0 & Hfields0).
      split.
      * apply (__init___missing ext cls environ _ pre0 post0 f info); try done.
        by rewrite lookup_insert_eq.
      * intros pre post env_vars attrs0 Hfields Henv Hpre.
        eapply (__init___missing ext cls environ _ pre post f info); try done.
        by rewrite lookup_insert_eq.
Qed.

(** ** Failures while reading the environment *)

Lemma fi_type_field_info_of (cls : settings_class) (f : string) (t : ftype) :
  fi_type (field_info_of cls f t) = t.
Proof. unfold field_info_of. by destruct (class_attrs cls !! f) as [[|]|]. Qed.

Lemma _get_env_vars_abort (ext : external) (cls : settings_class)
    (environ : gmap string string) (f : string) (t : ftype) (raw : string)
    (e : exn) :
  (f, t) ∈ annotations cls -> f <> "model_config" ->
  environ !! env_key cls f = Some raw ->
  _convert_env_value ext raw t = Raise e ->
  exists err,
    _get_env_vars ext cls (_get_fields_info cls) environ = Raise err
    /\ env_failure ext (model_config cls) (_get_fields_info cls) environ
         (annotations cls) err.
Proof.
  intros Hin Hf Hraw Hconv.
  apply (env_loop_abort ext _ _ _ _ ∅ f t (env_key cls f) raw e); try done.
  - intros n Hn Hne. exists (env_key cls n). by apply _get_env_name_catalogued.
  - apply _get_env_name_catalogued; [|done].
    apply list_elem_of_fmap. by exists (f, t).
Qed.

(** C9. When the environment variable of a catalogued field fails
    coercion to the declared type, construction aborts with the parse
    error of the environment reader (that of the first variable to fail),
    for every set of constructor arguments, so also when an explicit
    argument is given for that very field: the environment is read and
    coerced for every field before any merging. *)
Theorem env_failure_aborts (ext : external) (cls : settings_class)
    (environ : gmap string string) (f : string) (info : field_info)
    (raw : string) (e : exn) :
  (f, info) ∈ _get_fields_info cls ->
  environ !! env_key cls f = Some raw ->
  _convert_env_value ext raw (fi_type info) = Raise e ->
  exists err,
    env_failure ext (model_config cls) (_get_fields_info cls) environ
      (annotations cls) err
    /\ forall values : gmap string pyval,
         __init__ ext cls environ values = Raise err.
Proof.
  intros Hin Hraw Hconv. apply fields_elem in Hin as (Hf & t & Hin & ->).
  rewrite fi_type_field_info_of in Hconv.
  destruct (_get_env_vars_abort ext cls environ f t raw e Hin Hf Hraw Hconv)
    as (err & Herr & Hfail).
  exists err. split; [done|]. intros values. unfold __init__. by rewrite Herr.
Qed.



(** ** The schema *)

Lemma required_field_info_of (cls : settings_class) (f : string) (t : ftype) :
  required (field_info_of cls f t) = negb (declares_default cls f).
Proof.
  unfold required, field_info_of, declares_default.
  destruct (class_attrs cls !! f) as [[v|fld]|]; simpl; try done.
  symmetry. apply negb_orb.
Qed.

Lemma schema_required_loop (cls : settings_class) (items : list (string * ftype)) :
  schema_required (_get_fields_info_loop cls items)
  = filter (fun n => n <> "model_config" /\ declares_default cls n = false)
      items.*1.
Proof.
  unfold schema_required.
  induction items as [|[n t] items IH]; simpl; [done|].
  destruct (String.eqb_spec n "model_config") as [->|Hn].
  - rewrite IH, filter_cons_False; [done|]. by intros [? _].
  - pose proof (required_field_info_of cls n t) as Hr. unfold required in Hr.
    destruct (declares_default cls n) eqn:Hd; simpl in Hr.
    + rewrite !filter_cons_False; [done | | ].
      * intros [_ ?]. congruence.
      * simpl. by rewrite Hr.
    + rewrite !filter_cons_True; [| done | by simpl; rewrite Hr].
      simpl. f_equal. apply IH.
Qed.

Lemma required_of_generated (ext : external) (fields : list (string * field_info))
    (s : pyval) :
  _generate_schema ext fields = Ok s ->
  required_of_schema s = Some (VList (VStr <$> schema_required fields)).
Proof.
  unfold _generate_schema.
  destruct (schema_properties ext fields); simpl; [|done]. by intros [= <-].
Qed.

(** C7. The required list of the schema of a constructed instance is
    the list of the catalogued fields that have neither a fixed default
    nor a default factory, in declaration order, and the schema is the
    same whatever environment and arguments the construction was given.
    For the fields [a] (an [int] without default) and [b] (a [str] with
    default [x]) the required list is exactly [a]. *)
Theorem schema_required_list (ext : external) :
  (forall cls environ values inst,
     __init__ ext cls environ values = Ok inst ->
     required_of_schema (_schema inst) = Some (VList (VStr <$> required_names cls))
     /\ (forall n,
           n ∈ required_names cls
           <-> exists info, (n, info) ∈ _get_fields_info cls
                            /\ fi_has_default info = false
                            /\ fi_has_default_factory info = false)
     /\ (forall environ' values' inst',
           __init__ ext cls environ' values' = Ok inst' ->
           _schema inst' = _schema inst))
  /\ (forall environ values inst,
        __init__ ext ab_settings environ values = Ok inst ->
        required_of_schema (_schema inst) = Some (VList [VStr "a"])).
Proof.
  assert (forall cls environ values inst,
            __init__ ext cls environ values = Ok inst ->
            required_of_schema (_schema inst)
            = Some (VList (VStr <$> required_names cls))) as Hreq.
  { intros cls environ values inst Hinit.
    apply __init___inv in Hinit as (_ & _ & _ & Hschema).
    rewrite (required_of_generated ext _ _ Hschema).
    unfold _get_fields_info. by rewrite schema_required_loop. }
  split.
  - intros cls environ values inst Hinit. split; [by eapply Hreq|]. split.
    + intros n. unfold required_names. rewrite list_elem_of_filter. split.
      * intros [[Hn Hd] Hin]. apply list_elem_of_fmap in Hin as [[n' t] [-> Hin]].
        exists (field_info_of cls n' t). split.
        -- apply fields_elem. split; [done|]. by exists t.
        -- pose proof (required_field_info_of cls n' t) as Hr.
           simpl in Hd. rewrite Hd in Hr. unfold required in Hr. simpl in Hr.
           apply andb_true_iff in Hr as [H1 H2].
           by apply negb_true_iff in H1, H2.
      * intros (info & Hin & H1 & H2).
        apply fields_elem in Hin as (Hn & t & Hin & ->).
        split; [split; [done|] | apply list_elem_of_fmap; by exists (n, t)].
        pose proof (required_field_info_of cls n t) as Hr.
        unfold required in Hr. rewrite H1, H2 in Hr. simpl in Hr.
        symmetry in Hr. by apply negb_true_iff in Hr.
    + intros environ' values' inst' Hinit'.
      apply __init___inv in Hinit as (_ & _ & _ & Hs).
      apply __init___inv in Hinit' as (_ & _ & _ & Hs'). congruence.
  - intros environ values inst Hinit.
    by rewrite (Hreq _ _ _ _ Hinit).
Qed.

(** * Closed examples *)

Lemma wf_class_singleton (config : SettingsConfigDict) (n : string) (t : ftype)
    (a : gmap string class_attr) :
  wf_class {| model_config := config; annotations := [(n, t)]; class_attrs := a |}.
Proof. unfold wf_class. simpl. apply NoDup_singleton. Qed.

Lemma wf_class_pair (config : SettingsConfigDict) (n m : string) (t u : ftype)
    (a : gmap string class_attr) :
  n <> m ->
  wf_class {| model_config := config; annotations := [(n, t); (m, u)];
              class_attrs := a |}.
Proof.
  intros Hne. unfold wf_class. simpl. apply NoDup_cons.
  split; [|apply NoDup_singleton].
  intros H. apply list_elem_of_singleton in H. done.
Qed.

Lemma name_instance_constructed :
  __init__ Reference.runtime name_settings {[ "NAME" := "from_env" ]}
    {[ "name" := VStr "explicit" ]}
  = Ok name_instance.
Proof. vm_compute. reflexivity. Qed.

(** C1, counterexample. The class declares [name: str]; the environment
    sets [NAME] and the constructor is given [name] as well. Both values
    are valid for the field, and the instance holds the one from the
    environment, not the explicit argument. *)
Lemma explicit_argument_overridden :
  ({[ "NAME" := "from_env" ]} : gmap string string) !! env_key name_settings "name"
  = Some "from_env"
  /\ ({[ "name" := VStr "explicit" ]} : gmap string pyval) !! "name"
     = Some (VStr "explicit")
  /\ convert Reference.runtime (VStr "explicit") TStr = Ok (VStr "explicit")
  /\ exists inst,
       __init__ Reference.runtime name_settings {[ "NAME" := "from_env" ]}
         {[ "name" := VStr "explicit" ]} = Ok inst
       /\ attrs inst !! "name" = Some (VStr "from_env")
       /\ attrs inst !! "name" <> Some (VStr "explicit").
Proof.
  split; [by vm_compute|]. split; [by vm_compute|]. split; [reflexivity|].
  exists name_instance. split; [apply name_instance_constructed|].
  assert (attrs name_instance !! "name" = Some (VStr "from_env")) as H
    by (by vm_compute).
  split; [done|]. rewrite H. discriminate.
Qed.

Lemma value_precedence_witness :
  exists w, convert Reference.runtime (VStr "from_env") TStr = Ok w
            /\ attrs name_instance !! "name" = Some w.
Proof.
  refine (proj1 (value_precedence Reference.runtime name_settings
                   {[ "NAME" := "from_env" ]} {[ "name" := VStr "explicit" ]}
                   name_instance "name" (field_info_of name_settings "name" TStr)
                   _ _ _)
            "from_env" (VStr "from_env") _ _ _).
  - apply wf_class_singleton.
  - apply list_elem_of_singleton. reflexivity.
  - apply name_instance_constructed.
  - vm_compute. reflexivity.
  - reflexivity.
  - discriminate.
Defined.

Lemma wf_host_port_settings : wf_class host_port_settings.
Proof.
  unfold wf_class. simpl. apply NoDup_cons. split; [|apply NoDup_singleton].
  intros H. apply list_elem_of_singleton in H. discriminate.
Qed.

(** C2, counterexample. [port] has neither default nor factory and is
    supplied by no source, but so is [host], which comes first: the error
    raised is the one for [host] and does not name [port]. *)
Lemma missing_field_error_names_another :
  dict_lookup (_get_fields_info host_port_settings) "port"
  = Some (field_info_of host_port_settings "port" TInt)
  /\ fi_has_default (field_info_of host_port_settings "port" TInt) = false
  /\ fi_has_default_factory (field_info_of host_port_settings "port" TInt) = false
  /\ (∅ : gmap string string) !! env_key host_port_settings "port" = None
  /\ (∅ : gmap string pyval) !! "port" = None
  /\ __init__ Reference.runtime host_port_settings ∅ ∅
     = Raise (ValueError "Missing required field: host")
  /\ contains "Missing required field: host" "port" = false.
Proof. repeat split; by vm_compute. Qed.

Lemma missing_required_field_witness :
  __init__ Reference.runtime host_port_settings ∅ ∅
  = Raise (ValueError ("Missing required field: " ++ "host")).
Proof.
  refine (proj1 (proj2 (missing_required_field Reference.runtime
                          host_port_settings ∅ ∅ []
                          [("port", field_info_of host_port_settings "port" TInt)]
                          "host" (field_info_of host_port_settings "host" TStr)
                          _ _ _ _ _ _))
            ∅ ∅ _ _).
  - apply wf_host_port_settings.
  - reflexivity.
  - reflexivity.
  - reflexivity.
  - vm_compute. reflexivity.
  - vm_compute. reflexivity.
  - vm_compute. reflexivity.
  - reflexivity.
Defined.

(** C3, counterexample. The value selected for [note] is the [None] its
    default factory produces; validating it against the declared type
    would succeed, yet it is not assigned: the field is left unset. *)
Lemma factory_None_left_unset :
  selected_value (_get_fields_info note_settings) (merge_values ∅ ∅) "note"
  = Ok VNone
  /\ convert Reference.runtime VNone TAny = Ok VNone
  /\ exists inst,
       __init__ Reference.runtime note_settings ∅ ∅ = Ok inst
       /\ attrs inst !! "note" = None.
Proof.
  split; [by vm_compute|]. split; [reflexivity|].
  eexists. split; [vm_compute; reflexivity | by vm_compute].
Qed.

Lemma selected_value_assigned_witness :
  exists w, convert Reference.runtime (VList []) TAny = Ok w
            /\ attrs tags_instance !! "tags" = Some w.
Proof.
  refine (proj1 (proj2 (selected_value_assigned Reference.runtime tags_settings
                          ∅ ∅ tags_instance "tags"
                          (field_info_of tags_settings "tags" TAny) _ _ _)
                   (fun _ => Ok (VList [])) _ _ _) _).
  - apply wf_class_singleton.
  - apply list_elem_of_singleton. reflexivity.
  - vm_compute. reflexivity.
  - vm_compute. reflexivity.
  - vm_compute. reflexivity.
  - vm_compute. reflexivity.
  - reflexivity.
Defined.



Lemma env_failure_aborts_witness :
  exists err,
    env_failure Reference.runtime (model_config port_settings)
      (_get_fields_info port_settings) {[ "PORT" := "abc" ]}
      (annotations port_settings) err
    /\ forall values : gmap string pyval,
         __init__ Reference.runtime port_settings {[ "PORT" := "abc" ]} values
         = Raise err.
Proof.
  refine (env_failure_aborts Reference.runtime port_settings {[ "PORT" := "abc" ]}
            "port" (field_info_of port_settings "port" TInt) "abc"
            (ValueError "invalid literal for int() with base 10: 'abc'") _ _ _).
  - apply list_elem_of_singleton. reflexivity.
  - vm_compute. reflexivity.
  - vm_compute. reflexivity.
Defined.

Lemma ab_instance_constructed :
  __init__ Reference.runtime ab_settings ∅ (<[ "b" := VNone ]> {[ "a" := VInt 1 ]})
  = Ok ab_instance.
Proof. vm_compute. reflexivity. Qed.

Lemma explicit_None_is_absent_witness :
  exists w, convert Reference.runtime (VStr "x") TStr = Ok w
            /\ attrs ab_instance !! "b" = Some w.
Proof.
  refine (proj1 (proj2 (proj1 (proj2 (explicit_None_is_absent Reference.runtime
                                        ab_settings ∅ {[ "a" := VInt 1 ]} "b")
                                 (field_info_of ab_settings "b" TStr) _ _ _)
                          ab_instance _) _) _).
  - apply wf_class_pair. discriminate.
  - right. left.
  - apply lookup_empty.
  - apply ab_instance_constructed.
  - reflexivity.
  - discriminate.
Defined.

(** C10, counterexample. [port] has neither default nor factory and is
    given an explicit [None]; [host], the field before it, is given a
    value the validator rejects. Construction raises the validation
    error of [host], not the missing-field error. *)
Lemma explicit_None_behind_invalid_field :
  fi_has_default (field_info_of host_port_settings "port" TInt) = false
  /\ fi_has_default_factory (field_info_of host_port_settings "port" TInt) = false
  /\ ({[ "host" := VInt 5; "port" := VNone ]} : gmap string pyval) !! "port"
     = Some VNone
  /\ __init__ Reference.runtime host_port_settings ∅
       {[ "host" := VInt 5; "port" := VNone ]}
     = Raise (ValueError "Validation error for field host: Expected `str`, got `int`")
  /\ contains "Validation error for field host: Expected `str`, got `int`"
       "Missing required field" = false.
Proof. repeat split; by vm_compute. Qed.

Lemma schema_required_list_witness :
  required_of_schema (_schema ab_instance) = Some (VList [VStr "a"]).
Proof.
  refine (proj2 (schema_required_list Reference.runtime) ∅ {[ "a" := VInt 1 ]}
            ab_instance _).
  vm_compute. reflexivity.
Defined.

(** * Further properties of the settings engine *)

(** ** The catalogue *)

Lemma dict_lookup_loop (cls : settings_class) (items : list (string * ftype))
    (n : string) :
  dict_lookup (_get_fields_info_loop cls items) n
  = if String.eqb n "model_config" then None
    else field_info_of cls n <$> dict_lookup items n.
Proof.
  induction items as [|[m t] items IH]; simpl.
  - by destruct (String.eqb n "model_config").
  - destruct (String.eqb_spec m "model_config") as [Hm|Hm].
    + rewrite IH. destruct (String.eqb_spec n "model_config") as [Hn|Hn]; [done|].
      destruct (String.eqb_spec m n) as [Hmn|_]; [congruence | done].
    + simpl. destruct (String.eqb_spec m n) as [Hmn|Hmn].
      * subst m. destruct (String.eqb_spec n "model_config"); [congruence | done].
      * apply IH.
Qed.

Lemma fields_keys (cls : settings_class) :
  (_get_fields_info cls).*1
  = filter (fun n => n <> "model_config") (annotations cls).*1.
Proof.
  unfold _get_fields_info.
  induction (annotations cls) as [|[n t] items IH]; simpl; [done|].
  destruct (String.eqb_spec n "model_config") as [->|Hn].
  - by rewrite filter_cons_False by (intros H; by apply H).
  - rewrite filter_cons_True by done. simpl. f_equal. apply IH.
Qed.

(** X1. [_get_fields_info] catalogues the annotated names in declaration
    order and leaves out exactly [model_config]; each entry keeps the
    annotated type of its field. *)
Theorem catalogue_keys (cls : settings_class) :
  (_get_fields_info cls).*1
  = filter (fun n => n <> "model_config") (annotations cls).*1
  /\ ("model_config" ∉ (_get_fields_info cls).*1)
  /\ forall f info, (f, info) ∈ _get_fields_info cls ->
                    (f, fi_type info) ∈ annotations cls.
Proof.
  pose proof (fields_keys cls) as Hkeys.
  split; [done|]. split.
  - rewrite Hkeys. intros [H _]%list_elem_of_filter. by apply H.
  - intros f info (_ & t & Hin & ->)%fields_elem.
    by rewrite fi_type_field_info_of.
Qed.

(** X2. For a catalogued field, [_get_field_default] cannot fail on its
    own: with a default factory it returns what the factory returns
    (the fixed default is not looked at), without one it returns the
    fixed default, which is [None] when the class declares nothing. *)
Theorem default_of_catalogued_field (cls : settings_class) (f : string)
    (info : field_info) :
  wf_class cls -> (f, info) ∈ _get_fields_info cls ->
  (forall factory, fi_default_factory info = Some factory ->
     _get_field_default (_get_fields_info cls) f = factory tt)
  /\ (fi_default_factory info = None ->
      _get_field_default (_get_fields_info cls) f = Ok (fi_default info)
      /\ (class_attrs cls !! f = None -> fi_default info = VNone)).
Proof.
  intros Hwf Hin.
  pose proof (_get_field_default_catalogued cls f info Hwf Hin) as Hd.
  split.
  - intros factory Hfac. by rewrite Hd, Hfac.
  - intros Hfac. rewrite Hd, Hfac. split; [done|].
    intros Hattr. apply fields_elem in Hin as (_ & t & _ & ->).
    unfold field_info_of. by rewrite Hattr.
Qed.

Lemma default_of_catalogued_field_witness :
  _get_field_default (_get_fields_info ab_settings) "b" = Ok (VStr "x").
Proof.
  refine (proj1 (proj2 (default_of_catalogued_field ab_settings "b"
                          (field_info_of ab_settings "b" TStr) _ _) _)).
  - unfold wf_class. simpl. apply NoDup_cons. split; [|apply NoDup_singleton].
    intros H. apply list_elem_of_singleton in H. discriminate.
  - right. left.
  - reflexivity.
Defined.

(** ** Coercion *)

(** X3. The string of the environment is kept as it is, and no
    collaborator is consulted, for a [str] field, for [typing.Any], for a
    class that is not a struct, for the generic [list[t]], and for
    [typing.Optional] of anything builtin but [int] and [float]: so the
    variable of an [Optional[bool]] or [Optional[List[int]]] field is not
    coerced. A nested [Optional] is coerced as the single [Optional] it
    is, so [Optional[Optional[int]]] is parsed as an integer. *)
Theorem passthrough_coercion (ext : external) (value : string) (t : ftype) :
  (passes_through t = true ->
   _convert_env_value ext value t = Ok (VStr value))
  /\ _convert_env_value ext value (TOptional (TOptional t))
     = _convert_env_value ext value (TOptional t)
  /\ _convert_env_value ext value (TOptional (TOptional TInt))
     = obind (py_int ext value) (fun n => Ok (VInt n)).
Proof.
  split; [|split; reflexivity].
  induction t as [| | | | | | |t' IH| | | | |]; try discriminate; try reflexivity.
  intros Hpass. destruct t'; try discriminate; try reflexivity.
  simpl in Hpass. rewrite <- (IH Hpass). reflexivity.
Qed.

Lemma passthrough_coercion_witness :
  _convert_env_value Reference.runtime "true" (TOptional TBool) = Ok (VStr "true").
Proof.
  apply (proj1 (passthrough_coercion Reference.runtime "true" (TOptional TBool))).
  reflexivity.
Defined.



(** ** The environment reader *)

Lemma env_loop_model_config (ext : external) (config : SettingsConfigDict)
    (fields : list (string * field_info)) (environ : gmap string string)
    (items : list (string * ftype)) (acc env_vars : gmap string pyval) :
  _get_env_vars_loop ext config fields environ items acc = Ok env_vars ->
  env_vars !! "model_config" = acc !! "model_config".
Proof.
  revert acc. induction items as [|[n t] items IH]; intros acc; simpl.
  - by intros [= ->].
  - destruct (String.eqb_spec n "model_config") as [Hn|Hn]; [apply IH|].
    destruct (_get_env_name config fields n) as [key|e]; simpl; [|done].
    destruct (environ !! key) as [raw|]; [|apply IH].
    destruct (_convert_env_value ext raw t) as [v|e]; [|done].
    intros H. rewrite (IH _ H). by rewrite lookup_insert_ne.
Qed.

Lemma env_loop_agree (ext : external) (config : SettingsConfigDict)
    (fields : list (string * field_info)) (environ1 environ2 : gmap string string)
    (items : list (string * ftype)) (acc : gmap string pyval) :
  (forall n key, n ∈ items.*1 -> n <> "model_config" ->
                 _get_env_name config fields n = Ok key ->
                 environ1 !! key = environ2 !! key) ->
  _get_env_vars_loop ext config fields environ1 items acc
  = _get_env_vars_loop ext config fields environ2 items acc.
Proof.
  revert acc. induction items as [|[n t] items IH]; intros acc Hagree; simpl; [done|].
  assert (forall acc', _get_env_vars_loop ext config fields environ1 items acc'
                       = _get_env_vars_loop ext config fields environ2 items acc')
    as Hrest.
  { intros acc'. apply IH. intros m key Hm. apply Hagree. by right. }
  destruct (String.eqb_spec n "model_config") as [Hn|Hn]; [apply Hrest|].
  destruct (_get_env_name config fields n) as [key|e] eqn:Hkey; simpl; [|done].
  rewrite <- (Hagree n key); [|by left|done|done].
  destruct (environ1 !! key) as [raw|]; [|apply Hrest].
  destruct (_convert_env_value ext raw t); [apply Hrest | done].
Qed.

Lemma catalogued_annotated (cls : settings_class) (f : string) :
  f ∈ (_get_fields_info cls).*1
  <-> f ∈ (annotations cls).*1 /\ f <> "model_config".
Proof.
  rewrite (fields_keys cls), list_elem_of_filter. tauto.
Qed.

(** X5. After a successful reading of the environment, [env_vars] has an
    entry for exactly the catalogued fields whose variable is set; a
    field whose variable is not set is left out, and no other name gets
    in. *)
Theorem env_vars_domain (ext : external) (cls : settings_class)
    (environ : gmap string string) (env_vars : gmap string pyval) (f : string) :
  wf_class cls ->
  _get_env_vars ext cls (_get_fields_info cls) environ = Ok env_vars ->
  is_Some (env_vars !! f)
  <-> f ∈ (_get_fields_info cls).*1 /\ is_Some (environ !! env_key cls f).
Proof.
  intros Hwf Henv. split.
  - intros Hsome.
    destruct (decide (f ∈ (_get_fields_info cls).*1)) as [Hin|Hnotin].
    + split; [done|].
      apply list_elem_of_fmap in Hin as [[f' info] [Heq Hin]]. simpl in Heq. subst f'.
      pose proof (_get_env_vars_lookup ext cls environ env_vars f info Hwf Hin Henv)
        as Hlook.
      destruct (environ !! env_key cls f); [by eexists|].
      rewrite Hlook in Hsome. by destruct Hsome.
    + exfalso. rewrite catalogued_annotated in Hnotin.
      destruct (decide (f = "model_config")) as [->|Hf].
      * rewrite (env_loop_model_config _ _ _ _ _ _ _ Henv), lookup_empty in Hsome.
        by destruct Hsome.
      * assert (f ∉ (annotations cls).*1) as Hnot by tauto.
        rewrite (env_loop_other _ _ _ _ _ _ _ _ Henv Hnot), lookup_empty in Hsome.
        by destruct Hsome.
  - intros [Hin [raw Hraw]].
    apply list_elem_of_fmap in Hin as [[f' info] [Heq Hin]]. simpl in Heq. subst f'.
    pose proof (_get_env_vars_lookup ext cls environ env_vars f info Hwf Hin Henv)
      as Hlook.
    rewrite Hraw in Hlook. destruct Hlook as (v & _ & ->). by eexists.
Qed.

Lemma env_vars_domain_witness :
  is_Some (({[ "port" := VInt 8080 ]} : gmap string pyval) !! "port")
  <-> "port" ∈ (_get_fields_info host_port_settings).*1
      /\ is_Some (({[ "PORT" := "8080" ]} : gmap string string)
                    !! env_key host_port_settings "port").
Proof.
  apply (env_vars_domain Reference.runtime host_port_settings
           {[ "PORT" := "8080" ]} {[ "port" := VInt 8080 ]} "port").
  - apply wf_host_port_settings.
  - vm_compute. reflexivity.
Defined.

Lemma _get_env_vars_agree (ext : external) (cls : settings_class)
    (environ1 environ2 : gmap string string) :
  (forall f, f ∈ (_get_fields_info cls).*1 ->
             environ1 !! env_key cls f = environ2 !! env_key cls f) ->
  _get_env_vars ext cls (_get_fields_info cls) environ1
  = _get_env_vars ext cls (_get_fields_info cls) environ2.
Proof.
  intros Hagree. apply env_loop_agree. intros n key Hn Hne Hkey.
  rewrite _get_env_name_catalogued in Hkey by done. injection Hkey as <-.
  apply Hagree. by apply catalogued_annotated.
Qed.

(** X6. Construction looks at the environment only under the keys of the
    catalogued fields: two environments that agree on those keys give
    the same outcome, so variables that belong to no field change
    nothing. *)
Theorem unrelated_variables_ignored (ext : external) (cls : settings_class)
    (environ1 environ2 : gmap string string) (values : gmap string pyval) :
  (forall f, f ∈ (_get_fields_info cls).*1 ->
             environ1 !! env_key cls f = environ2 !! env_key cls f) ->
  __init__ ext cls environ1 values = __init__ ext cls environ2 values.
Proof.
  intros Hagree. unfold __init__.
  by rewrite (_get_env_vars_agree ext cls environ1 environ2 Hagree).
Qed.

Lemma unrelated_variables_ignored_witness :
  __init__ Reference.runtime port_settings {[ "PORT" := "80"; "HOME" := "/root" ]} ∅
  = __init__ Reference.runtime port_settings {[ "PORT" := "80" ]} ∅.
Proof.
  apply (unrelated_variables_ignored Reference.runtime port_settings).
  intros f Hf. apply list_elem_of_singleton in Hf. subst f.
  vm_compute. reflexivity.
Defined.

(** X7. When no catalogued field has its variable set (an empty
    environment, say), reading the environment succeeds with the empty
    mapping and construction validates the explicit arguments as they
    are given. *)
Theorem no_variable_set (ext : external) (cls : settings_class)
    (environ : gmap string string) (values : gmap string pyval) :
  (forall f, f ∈ (_get_fields_info cls).*1 -> environ !! env_key cls f = None) ->
  _get_env_vars ext cls (_get_fields_info cls) environ = Ok ∅
  /\ __init__ ext cls environ values
     = _validate_and_set_values ext (_get_fields_info cls) values.
Proof.
  intros Hnone.
  assert (_get_env_vars ext cls (_get_fields_info cls) environ = Ok ∅) as Henv.
  { unfold _get_env_vars.
    assert (forall n, n ∈ (annotations cls).*1 -> n <> "model_config" ->
                      environ !! env_key cls n = None) as Hn.
    { intros n Hin Hne. apply Hnone. by apply catalogued_annotated. }
    assert (forall n, n ∈ (annotations cls).*1 -> n <> "model_config" ->
                      _get_env_name (model_config cls) (_get_fields_info cls) n
                      = Ok (env_key cls n)) as Hkey.
    { intros n Hin Hne. by apply _get_env_name_catalogued. }
    generalize (∅ : gmap string pyval) as acc.
    induction (annotations cls) as [|[n t] items IH]; intros acc; simpl; [done|].
    assert (_get_env_vars_loop ext (model_config cls) (_get_fields_info cls)
              environ items acc = Ok acc) as Hrest.
    { apply IH; intros m Hm; [apply Hn | apply Hkey]; by right. }
    destruct (String.eqb_spec n "model_config") as [Heq|Hne]; [done|].
    rewrite Hkey; [|by left|done]. simpl. rewrite Hn; [done|by left|done]. }
  split; [done|]. unfold __init__. rewrite Henv. simpl.
  unfold merge_values. by rewrite (left_id_L ∅ (∪)).
Qed.

Lemma no_variable_set_witness :
  _get_env_vars Reference.runtime port_settings (_get_fields_info port_settings) ∅
  = Ok ∅
  /\ __init__ Reference.runtime port_settings ∅ {[ "port" := VInt 80 ]}
     = _validate_and_set_values Reference.runtime (_get_fields_info port_settings)
         {[ "port" := VInt 80 ]}.
Proof.
  apply (no_variable_set Reference.runtime port_settings ∅ {[ "port" := VInt 80 ]}).
  intros f _. apply lookup_empty.
Defined.

(** X8. The handler of the environment reader rewrites a [ValueError]
    only. When the coercion of the first failing variable raises an
    exception that is not a [ValueError], construction raises that very
    exception: the environment key is not added to it. *)
Theorem other_exceptions_propagate (ext : external) (cls : settings_class)
    (environ : gmap string string) (values : gmap string pyval)
    (pre post : list (string * ftype)) (f : string) (t : ftype)
    (raw : string) (e : exn) :
  annotations cls = (pre ++ (f, t) :: post)%list ->
  f <> "model_config" ->
  succeeds (_get_env_vars_loop ext (model_config cls) (_get_fields_info cls)
              environ pre ∅) ->
  environ !! env_key cls f = Some raw ->
  _convert_env_value ext raw t = Raise e ->
  isinstance_ValueError e = false ->
  __init__ ext cls environ values = Raise e.
Proof.
  intros Hann Hf [acc Hpre] Hraw Hconv Hve.
  assert (f ∈ (annotations cls).*1) as Hin.
  { rewrite Hann. apply list_elem_of_fmap. exists (f, t). split; [done|].
    apply elem_of_app. right. by left. }
  unfold __init__, _get_env_vars.
  rewrite Hann, env_loop_app, Hpre. simpl.
  destruct (String.eqb_spec f "model_config") as [|_]; [done|].
  rewrite _get_env_name_catalogued by done.
  simpl. rewrite Hraw, Hconv. simpl.
  unfold env_parse_error. by rewrite Hve.
Qed.

Lemma other_exceptions_propagate_witness :
  __init__ truncating_runtime options_settings {[ "OPTIONS" := "{" ]} ∅
  = Raise (Exn "DecodeError" false false "Input data was truncated").
Proof.
  apply (other_exceptions_propagate truncating_runtime options_settings
           {[ "OPTIONS" := "{" ]} ∅ [] [] "options" TDict "{").
  - reflexivity.
  - discriminate.
  - eexists. reflexivity.
  - vm_compute. reflexivity.
  - reflexivity.
  - reflexivity.
Defined.

(** ** The merger *)

Lemma set_fields_ext_on (ext : external) (fields : list (string * field_info))
    (values1 values2 : gmap string pyval) (items : list (string * field_info))
    (attrs : gmap string pyval) :
  (forall k, k ∈ items.*1 ->
             default VNone (values1 !! k) = default VNone (values2 !! k)) ->
  set_fields ext fields values1 items attrs
  = set_fields ext fields values2 items attrs.
Proof.
  revert attrs. induction items as [|[n info] items IH]; intros attrs Hget;
    simpl; [done|].
  assert (set_field ext fields values1 attrs n info
          = set_field ext fields values2 attrs n info) as ->.
  { unfold set_field. rewrite Hget; [done | by left]. }
  destruct (set_field ext fields values2 attrs n info); simpl; [|done].
  apply IH. intros k Hk. apply Hget. by right.
Qed.

(** X9. Keyword arguments under names that are no catalogued field are
    ignored: two sets of arguments that agree on the catalogued names
    give the same outcome, and an unknown name raises nothing. *)
Theorem unknown_arguments_ignored (ext : external) (cls : settings_class)
    (environ : gmap string string) (values1 values2 : gmap string pyval) :
  (forall f, f ∈ (_get_fields_info cls).*1 -> values1 !! f = values2 !! f) ->
  __init__ ext cls environ values1 = __init__ ext cls environ values2.
Proof.
  intros Hagree. unfold __init__, _validate_and_set_values.
  destruct (_get_env_vars ext cls (_get_fields_info cls) environ)
    as [env_vars|e]; simpl; [|done].
  rewrite (set_fields_ext_on ext _ _ (merge_values values2 env_vars)); [done|].
  intros k Hk. rewrite !merge_values_lookup. by rewrite (Hagree k Hk).
Qed.

Lemma unknown_arguments_ignored_witness :
  __init__ Reference.runtime port_settings ∅
    {[ "port" := VInt 80; "colour" := VStr "red" ]}
  = __init__ Reference.runtime port_settings ∅ {[ "port" := VInt 80 ]}.
Proof.
  apply (unknown_arguments_ignored Reference.runtime port_settings).
  intros f Hf. apply list_elem_of_singleton in Hf. subst f.
  vm_compute. reflexivity.
Defined.

(** X10. When the variable of a catalogued field is set, an explicit
    argument for that field has no effect at all: construction gives the
    same outcome with it, without it, and with any other value for it. *)
Theorem explicit_argument_without_effect (ext : external) (cls : settings_class)
    (environ : gmap string string) (values : gmap string pyval)
    (f : string) (v : pyval) :
  wf_class cls -> f ∈ (_get_fields_info cls).*1 ->
  is_Some (environ !! env_key cls f) ->
  __init__ ext cls environ (<[f := v]> values) = __init__ ext cls environ values.
Proof.
  intros Hwf Hin Hset. unfold __init__, _validate_and_set_values.
  destruct (_get_env_vars ext cls (_get_fields_info cls) environ)
    as [env_vars|e] eqn:Henv; simpl; [|done].
  rewrite (set_fields_ext ext _ _ (merge_values values env_vars)); [done|].
  intros k. rewrite !merge_values_lookup.
  destruct (decide (f = k)) as [<-|Hne].
  - apply list_elem_of_fmap in Hin as [[f' info] [Heq Hin]]. simpl in Heq. subst f'.
    pose proof (_get_env_vars_lookup ext cls environ env_vars f info Hwf Hin Henv)
      as Hlook.
    destruct Hset as [raw Hraw]. rewrite Hraw in Hlook.
    by destruct Hlook as (w & _ & ->).
  - by rewrite lookup_insert_ne.
Qed.

Lemma explicit_argument_without_effect_witness :
  __init__ Reference.runtime port_settings {[ "PORT" := "80" ]}
    (<[ "port" := VInt 8080 ]> ∅)
  = __init__ Reference.runtime port_settings {[ "PORT" := "80" ]} ∅.
Proof.
  apply (explicit_argument_without_effect Reference.runtime port_settings
           {[ "PORT" := "80" ]} ∅ "port" (VInt 8080)).
  - apply wf_class_singleton.
  - apply list_elem_of_singleton. reflexivity.
  - eexists. vm_compute. reflexivity.
Defined.

(** X11. The attributes of a constructed instance are [_fields],
    [_schema] and those the validation loop sets, which are under the
    names of catalogued fields only: none is set for [model_config] or
    for an unknown keyword argument, and every required field is set. *)
Theorem instance_attributes (ext : external) (cls : settings_class)
    (environ : gmap string string) (values : gmap string pyval)
    (inst : instance) :
  wf_class cls -> reserved_free cls ->
  __init__ ext cls environ values = Ok inst ->
  (forall n, n ∈ instance_attribute_names inst ->
             n = "_fields" \/ n = "_schema" \/ n ∈ (_get_fields_info cls).*1)
  /\ "_fields" ∈ instance_attribute_names inst
  /\ "_schema" ∈ instance_attribute_names inst
  /\ ("model_config" ∉ instance_attribute_names inst)
  /\ (forall k, is_Some (values !! k) -> k ∉ (_get_fields_info cls).*1 ->
                k <> "_fields" -> k <> "_schema" ->
                k ∉ instance_attribute_names inst)
  /\ (forall f info, (f, info) ∈ _get_fields_info cls ->
                     fi_has_default info = false ->
                     fi_has_default_factory info = false ->
                     f ∈ instance_attribute_names inst
                     /\ is_Some (attrs inst !! f)).
Proof.
  intros Hwf _ Hinit.
  assert (forall n, is_Some (attrs inst !! n) -> n ∈ (_get_fields_info cls).*1)
    as Hset.
  { intros n Hsome.
    destruct (decide (n ∈ (_get_fields_info cls).*1)) as [|Hnotin]; [done|].
    pose proof Hinit as Hinv. apply __init___inv in Hinv as (env_vars & _ & Hfields & _).
    rewrite (set_fields_frame ext _ _ _ _ _ n Hfields Hnotin), lookup_empty in Hsome.
    by destruct Hsome. }
  assert (forall n, n ∈ instance_attribute_names inst ->
                    n = "_fields" \/ n = "_schema" \/ n ∈ (_get_fields_info cls).*1)
    as Hnames.
  { intros n Hn. unfold instance_attribute_names in Hn.
    apply elem_of_union in Hn as [Hn|Hn].
    - apply elem_of_union in Hn as [Hn|Hn]; apply elem_of_singleton in Hn; tauto.
    - right. right. by apply Hset, elem_of_dom. }
  split; [done|]. split; [|split; [|split; [|split]]].
  - unfold instance_attribute_names. set_solver.
  - unfold instance_attribute_names. set_solver.
  - intros Hn. destruct (Hnames _ Hn) as [H|[H|H]]; [done|done|].
    by apply catalogued_annotated in H as [_ H].
  - intros k _ Hk H1 H2 Hn. destruct (Hnames _ Hn) as [H|[H|H]]; done.
  - intros f info Hin Hd Hf.
    destruct (resolved_attribute ext cls environ values inst f info Hwf Hin Hinit)
      as (env_vars & sel & _ & _ & Hsome & Hnone).
    assert (is_Some (attrs inst !! f)) as Hattr.
    { destruct (is_None sel) eqn:Hsel.
      - apply is_None_true in Hsel. destruct (Hnone Hsel) as [Hreq _].
        unfold required in Hreq. by rewrite Hd, Hf in Hreq.
      - apply is_None_false in Hsel. destruct (Hsome Hsel) as (w & _ & ->).
        by eexists. }
    split; [|done]. unfold instance_attribute_names.
    apply elem_of_union. right. by apply elem_of_dom.
Qed.

Lemma instance_attributes_witness :
  "name" ∈ instance_attribute_names name_instance
  /\ is_Some (attrs name_instance !! "name").
Proof.
  refine (proj2 (proj2 (proj2 (proj2 (proj2
            (instance_attributes Reference.runtime name_settings
               {[ "NAME" := "from_env" ]} {[ "name" := VStr "explicit" ]}
               name_instance _ _ _))))) "name"
            (field_info_of name_settings "name" TStr) _ _ _).
  - apply wf_class_singleton.
  - split; simpl; intros H; apply list_elem_of_singleton in H; discriminate.
  - apply name_instance_constructed.
  - apply list_elem_of_singleton. reflexivity.
  - reflexivity.
  - reflexivity.
Defined.

(** X12. Validation is fail-fast: when the environment was read and the
    fields before [f] were assigned, a value for [f] that the validator
    rejects ends construction, whatever fields follow. A
    [ValidationError] is raised again as a [ValueError] whose message
    names the field and carries the validator's message; any other
    exception of the validator reaches the caller unchanged. *)
Theorem validation_failure_reported (ext : external) (cls : settings_class)
    (environ : gmap string string) (values env_vars attrs0 : gmap string pyval)
    (pre post : list (string * field_info)) (f : string) (info : field_info)
    (sel : pyval) (e : exn) :
  _get_fields_info cls = (pre ++ (f, info) :: post)%list ->
  _get_env_vars ext cls (_get_fields_info cls) environ = Ok env_vars ->
  set_fields ext (_get_fields_info cls) (merge_values values env_vars) pre ∅
  = Ok attrs0 ->
  selected_value (_get_fields_info cls) (merge_values values env_vars) f = Ok sel ->
  sel <> VNone ->
  convert ext sel (fi_type info) = Raise e ->
  (isinstance_ValidationError e = true ->
   __init__ ext cls environ values
   = Raise (ValueError ("Validation error for field " ++ f ++ ": " ++ exn_str e))
   /\ contains ("Validation error for field " ++ f ++ ": " ++ exn_str e) f = true)
  /\ (isinstance_ValidationError e = false ->
      __init__ ext cls environ values = Raise e).
Proof.
  intros Hfields Henv Hpre Hsel Hne Hconv.
  assert (__init__ ext cls environ values = Raise (validation_error f e)) as Hinit.
  { unfold __init__, _validate_and_set_values. rewrite Henv. simpl.
    rewrite Hfields at 2. rewrite set_fields_app, Hpre. simpl.
    rewrite set_field_selected, Hsel. simpl.
    apply is_None_false in Hne. by rewrite Hne, Hconv. }
  rewrite Hinit. unfold validation_error. split; intros ->; [|done].
  split; [done | apply contains_app].
Qed.

Lemma validation_failure_reported_witness :
  __init__ Reference.runtime port_settings ∅ {[ "port" := VStr "eighty" ]}
  = Raise (ValueError ("Validation error for field " ++ "port" ++ ": "
                       ++ "Expected `int`, got `str`")).
Proof.
  refine (proj1 (proj1 (validation_failure_reported Reference.runtime port_settings
                          ∅ {[ "port" := VStr "eighty" ]} ∅ ∅ [] [] "port"
                          (field_info_of port_settings "port" TInt)
                          (VStr "eighty")
                          (Reference.ValidationError "Expected `int`, got `str`")
                          _ _ _ _ _ _) _)).
  - reflexivity.
  - reflexivity.
  - reflexivity.
  - vm_compute. reflexivity.
  - discriminate.
  - reflexivity.
  - reflexivity.
Defined.

(** ** The schema *)

Lemma schema_properties_keys (ext : external) (items : list (string * field_info))
    (props : list (pyval * pyval)) :
  schema_properties ext items = Ok props -> props.*1 = VStr <$> items.*1.
Proof.
  revert props. induction items as [|[n info] items IH]; intros props; simpl.
  - by intros [= <-].
  - destruct (json_schema ext (fi_type info)) as [s|e]; simpl; [|done].
    destruct (schema_properties ext items) as [ps|e]; simpl; [|done].
    intros [= <-]. simpl. f_equal. by apply IH.
Qed.

Lemma schema_properties_abort (ext : external) (items : list (string * field_info))
    (f : string) (info : field_info) (e : exn) :
  (f, info) ∈ items -> json_schema ext (fi_type info) = Raise e ->
  aborts (schema_properties ext items).
Proof.
  intros Hin Hs. induction items as [|[n info'] items IH]; simpl.
  - by apply elem_of_nil in Hin.
  - apply elem_of_cons in Hin as [[= <- <-]|Hin].
    + rewrite Hs. by exists e.
    + destruct (json_schema ext (fi_type info')) as [s|e']; simpl; [|by exists e'].
      destruct (IH Hin) as [e' ->]. by exists e'.
Qed.

Lemma schema_properties_lookup (ext : external)
    (items : list (string * field_info)) (props : list (pyval * pyval))
    (f : string) (info : field_info) :
  schema_properties ext items = Ok props ->
  NoDup items.*1 -> (f, info) ∈ items ->
  exists s, json_schema ext (fi_type info) = Ok s /\ pydict_get props f = Some s.
Proof.
  revert props. induction items as [|[n info'] items IH]; intros props; simpl.
  - intros _ _ Hin. by apply elem_of_nil in Hin.
  - destruct (json_schema ext (fi_type info')) as [s'|e] eqn:Hs; simpl; [|done].
    destruct (schema_properties ext items) as [ps|e]; simpl; [|done].
    intros [= <-] [Hnotin Hnd]%NoDup_cons Hin. simpl.
    apply elem_of_cons in Hin as [[= <- <-]|Hin].
    + exists s'. by rewrite String.eqb_refl.
    + destruct (String.eqb_spec n f) as [->|Hne].
      * exfalso. apply Hnotin, list_elem_of_fmap. by exists (f, info).
      * by apply IH.
Qed.

(** X13. The schema of a constructed instance, which [schema] returns,
    is an object description with a property for every catalogued field,
    keyed by the field names in catalogue order, the property of a field
    being msgspec's schema of its declared type; every name of the
    schema's required list is a key of its properties. *)
Theorem schema_shape (ext : external) (cls : settings_class)
    (environ : gmap string string) (values : gmap string pyval)
    (inst : instance) :
  wf_class cls ->
  __init__ ext cls environ values = Ok inst ->
  exists props names,
    type_of_schema (schema inst) = Some (VStr "object")
    /\ properties_of_schema (schema inst) = Some (VDict props)
    /\ required_of_schema (schema inst) = Some (VList names)
    /\ props.*1 = VStr <$> (_get_fields_info cls).*1
    /\ (forall name, name ∈ names -> name ∈ props.*1)
    /\ (forall f info, (f, info) ∈ _get_fields_info cls ->
          exists s, json_schema ext (fi_type info) = Ok s
                    /\ pydict_get props f = Some s).
Proof.
  intros Hwf Hinit. apply __init___inv in Hinit as (_ & _ & _ & Hschema).
  unfold _generate_schema in Hschema.
  destruct (schema_properties ext (_get_fields_info cls)) as [props|e] eqn:Hprops;
    simpl in Hschema; [|done].
  injection Hschema as Hs. unfold schema. rewrite <- Hs.
  exists props, (VStr <$> schema_required (_get_fields_info cls)).
  split; [done|]. split; [done|]. split; [done|].
  pose proof (schema_properties_keys ext _ _ Hprops) as Hkeys.
  split; [done|]. split.
  - intros name Hname. rewrite Hkeys.
    apply list_elem_of_fmap in Hname as (n & -> & Hn).
    apply list_elem_of_fmap. exists n. split; [done|].
    unfold schema_required in Hn.
    apply list_elem_of_fmap in Hn as ([n' info] & -> & Hn).
    apply list_elem_of_filter in Hn as [_ Hn].
    apply list_elem_of_fmap. by exists (n', info).
  - intros f info Hin.
    apply (schema_properties_lookup ext (_get_fields_info cls)); try done.
    by apply fields_NoDup.
Qed.

Lemma schema_shape_witness :
  exists props names,
    type_of_schema (schema ab_instance) = Some (VStr "object")
    /\ properties_of_schema (schema ab_instance) = Some (VDict props)
    /\ required_of_schema (schema ab_instance) = Some (VList names)
    /\ props.*1 = VStr <$> (_get_fields_info ab_settings).*1
    /\ (forall name, name ∈ names -> name ∈ props.*1)
    /\ (forall f info, (f, info) ∈ _get_fields_info ab_settings ->
          exists s, json_schema Reference.runtime (fi_type info) = Ok s
                    /\ pydict_get props f = Some s).
Proof.
  apply (schema_shape Reference.runtime ab_settings ∅ {[ "a" := VInt 1 ]}).
  - apply wf_class_pair. discriminate.
  - vm_compute. reflexivity.
Defined.

Lemma schema_properties_failure (ext : external)
    (items : list (string * field_info)) (err : exn) :
  schema_properties ext items = Raise err ->
  exists f info, (f, info) ∈ items /\ json_schema ext (fi_type info) = Raise err.
Proof.
  induction items as [|[n info] items IH]; simpl; [done|].
  destruct (json_schema ext (fi_type info)) as [s|e] eqn:Hs; simpl.
  - destruct (schema_properties ext items) as [ps|e]; simpl; [done|].
    intros [= <-]. destruct IH as (f & info' & Hin & Hf); [done|].
    exists f, info'. split; [by right | done].
  - intros [= <-]. exists n, info. split; [by left | done].
Qed.

(** X14. A class with a field for whose type [msgspec.json.schema]
    raises cannot be constructed: the schema is generated at the end of
    every construction, so every construction aborts, and one whose
    environment was read and whose fields were all assigned raises the
    exception of the schema generator for one of its field types. *)
Theorem schema_failure_aborts (ext : external) (cls : settings_class)
    (f : string) (info : field_info) (e : exn) :
  (f, info) ∈ _get_fields_info cls ->
  json_schema ext (fi_type info) = Raise e ->
  forall environ values,
    aborts (__init__ ext cls environ values)
    /\ (forall env_vars assigned,
          _get_env_vars ext cls (_get_fields_info cls) environ = Ok env_vars ->
          set_fields ext (_get_fields_info cls) (merge_values values env_vars)
            (_get_fields_info cls) ∅ = Ok assigned ->
          exists f' info' err,
            (f', info') ∈ _get_fields_info cls
            /\ json_schema ext (fi_type info') = Raise err
            /\ __init__ ext cls environ values = Raise err).
Proof.
  intros Hin Hs environ values.
  destruct (schema_properties_abort ext _ f info e Hin Hs) as [e' He'].
  unfold __init__, _validate_and_set_values, _generate_schema. split.
  - destruct (_get_env_vars ext cls (_get_fields_info cls) environ)
      as [env_vars|e1]; simpl; [|by exists e1].
    destruct (set_fields ext _ _ _ ∅) as [a|e2]; simpl; [|by exists e2].
    rewrite He'. simpl. by exists e'.
  - intros env_vars assigned Henv Hset. rewrite Henv. simpl. rewrite Hset. simpl.
    destruct (schema_properties_failure ext _ e' He') as (f' & info' & Hin' & Hf').
    exists f', info', e'. rewrite He'. done.
Qed.

Lemma schema_failure_aborts_witness :
  exists f' info' err,
    (f', info') ∈ _get_fields_info token_settings
    /\ json_schema custom_type_runtime (fi_type info') = Raise err
    /\ __init__ custom_type_runtime token_settings ∅
         {[ "token" := VObject "msgspec_ext.types.secret.SecretStr"
                         [("secret", VStr "s3cret")] ]}
       = Raise err.
Proof.
  refine (proj2 (schema_failure_aborts custom_type_runtime token_settings "token"
                   (field_info_of token_settings "token"
                      (TClass "msgspec_ext.types.secret.SecretStr"))
                   (unsupported_type (TClass "msgspec_ext.types.secret.SecretStr"))
                   _ _ ∅
                   {[ "token" := VObject "msgspec_ext.types.secret.SecretStr"
                                   [("secret", VStr "s3cret")] ]})
            ∅
            {[ "token" := VObject "msgspec_ext.types.secret.SecretStr"
                            [("secret", VStr "s3cret")] ]} _ _).
  - apply list_elem_of_singleton. reflexivity.
  - reflexivity.
  - reflexivity.
  - vm_compute. reflexivity.
Defined.

(** ** [model_dump] *)

Lemma model_dump_loop_keys (cls : settings_class) (inst : instance)
    (items : list (string * field_info)) :
  (forall n, n ∈ items.*1 -> is_Some (instance_getattr cls inst n)) ->
  (model_dump_loop cls inst items).*1 = items.*1.
Proof.
  induction items as [|[n info] items IH]; intros Hall; simpl; [done|].
  destruct (Hall n) as [a Ha]; [by left|]. rewrite Ha. simpl. f_equal.
  apply IH. intros m Hm. apply Hall. by right.
Qed.

Lemma model_dump_loop_elem (cls : settings_class) (inst : instance)
    (items : list (string * field_info)) (n : string) (a : class_attr) :
  n ∈ items.*1 -> instance_getattr cls inst n = Some a ->
  (n, a) ∈ model_dump_loop cls inst items.
Proof.
  intros Hin Ha. induction items as [|[m info] items IH]; simpl.
  - by apply elem_of_nil in Hin.
  - destruct (decide (m = n)) as [->|Hne].
    + rewrite Ha. by left.
    + apply elem_of_cons in Hin as [->|Hin]; [done|].
      destruct (instance_getattr cls inst m); [right|]; by apply IH.
Qed.

Lemma optional_declared (cls : settings_class) (f : string) (info : field_info) :
  (f, info) ∈ _get_fields_info cls -> required info = false ->
  is_Some (class_attrs cls !! f).
Proof.
  intros (_ & t & _ & ->)%fields_elem. unfold required, field_info_of.
  destruct (class_attrs cls !! f) as [a|]; [by eexists | done].
Qed.

(** X15. After a successful construction [model_dump] has an entry for
    every catalogued field, in catalogue order: an assigned field with
    its validated value, and a field left unset with the attribute of
    the class (its default as declared), since a field is left unset
    only when the class declares a default. *)
Theorem model_dump_entries (ext : external) (cls : settings_class)
    (environ : gmap string string) (values : gmap string pyval)
    (inst : instance) :
  wf_class cls -> reserved_free cls ->
  __init__ ext cls environ values = Ok inst ->
  (model_dump cls inst).*1 = (_get_fields_info cls).*1
  /\ (forall f w, f ∈ (_get_fields_info cls).*1 -> attrs inst !! f = Some w ->
                  (f, Attr w) ∈ model_dump cls inst)
  /\ (forall f, f ∈ (_get_fields_info cls).*1 -> attrs inst !! f = None ->
                exists a, class_attrs cls !! f = Some a
                          /\ (f, a) ∈ model_dump cls inst).
Proof.
  intros Hwf _ Hinit.
  assert (forall f, f ∈ (_get_fields_info cls).*1 -> attrs inst !! f = None ->
                    is_Some (class_attrs cls !! f)) as Hdecl.
  { intros f Hin Hnone.
    apply list_elem_of_fmap in Hin as [[f' info] [Heq Hin]]. simpl in Heq. subst f'.
    destruct (resolved_attribute ext cls environ values inst f info Hwf Hin Hinit)
      as (env_vars & sel & _ & _ & Hsome & Hnone').
    destruct (is_None sel) eqn:Hsel.
    - apply is_None_true in Hsel. destruct (Hnone' Hsel) as [Hreq _].
      by apply (optional_declared cls f info).
    - apply is_None_false in Hsel. destruct (Hsome Hsel) as (w & _ & Hw).
      congruence. }
  unfold model_dump. split; [|split].
  - apply model_dump_loop_keys. intros n Hn. unfold instance_getattr.
    destruct (attrs inst !! n) eqn:Hattr; [by eexists | by apply Hdecl].
  - intros f w Hin Hw. apply model_dump_loop_elem; [done|].
    unfold instance_getattr. by rewrite Hw.
  - intros f Hin Hnone. destruct (Hdecl f Hin Hnone) as [a Ha].
    exists a. split; [done|]. apply model_dump_loop_elem; [done|].
    unfold instance_getattr. by rewrite Hnone.
Qed.

Lemma model_dump_entries_witness :
  (model_dump ab_settings ab_instance).*1 = (_get_fields_info ab_settings).*1
  /\ (forall f w, f ∈ (_get_fields_info ab_settings).*1 ->
                  attrs ab_instance !! f = Some w ->
                  (f, Attr w) ∈ model_dump ab_settings ab_instance)
  /\ (forall f, f ∈ (_get_fields_info ab_settings).*1 ->
                attrs ab_instance !! f = None ->
                exists a, class_attrs ab_settings !! f = Some a
                          /\ (f, a) ∈ model_dump ab_settings ab_instance).
Proof.
  apply (model_dump_entries Reference.runtime ab_settings ∅ {[ "a" := VInt 1 ]}).
  - apply wf_class_pair. discriminate.
  - split; simpl; intros H;
      repeat (apply elem_of_cons in H as [H|H]; [discriminate|]);
      by apply elem_of_nil in H.
  - vm_compute. reflexivity.
Defined.

Lemma catalogue_keys_witness :
  ("a", fi_type (field_info_of ab_settings "a" TInt)) ∈ annotations ab_settings.
Proof.
  apply (proj2 (proj2 (catalogue_keys ab_settings)) "a"
           (field_info_of ab_settings "a" TInt)).
  left.
Defined.

(** ** The default factory is called only when needed *)

Section Laziness.

Variable ext : external.
Variables cls1 cls2 : settings_class.
Variable f : string.
Hypothesis Hsame : same_but_factory cls1 cls2 f.

Lemma same_but_factory_info (n : string) (t : ftype) :
  fi_type (field_info_of cls1 n t) = fi_type (field_info_of cls2 n t)
  /\ fi_name (field_info_of cls1 n t) = fi_name (field_info_of cls2 n t)
  /\ fi_has_default (field_info_of cls1 n t)
     = fi_has_default (field_info_of cls2 n t)
  /\ fi_has_default_factory (field_info_of cls1 n t)
     = fi_has_default_factory (field_info_of cls2 n t)
  /\ (n <> f -> field_info_of cls1 n t = field_info_of cls2 n t).
Proof.
  destruct Hsame as (_ & _ & Hother & fld1 & fld2 & H1 & H2 & Hname & Hdef & Hf1 & Hf2).
  destruct (decide (n = f)) as [->|Hne].
  - unfold field_info_of. rewrite H1, H2. simpl. rewrite Hname, Hdef.
    repeat split; try done.
    by rewrite !bool_decide_eq_true_2.
  - unfold field_info_of. rewrite (Hother n Hne). done.
Qed.

Lemma same_but_factory_env_name (n : string) :
  _get_env_name (model_config cls1) (_get_fields_info cls1) n
  = _get_env_name (model_config cls2) (_get_fields_info cls2) n.
Proof.
  destruct Hsame as (Hconfig & Hann & _).
  unfold _get_env_name, _get_fields_info.
  rewrite !dict_lookup_loop, Hann, Hconfig.
  destruct (String.eqb n "model_config"); [done|].
  destruct (dict_lookup (annotations cls2) n) as [t|]; simpl; [|done].
  destruct (same_but_factory_info n t) as (_ & -> & _). done.
Qed.

Lemma same_but_factory_env (environ : gmap string string)
    (items : list (string * ftype)) (acc : gmap string pyval) :
  _get_env_vars_loop ext (model_config cls1) (_get_fields_info cls1) environ items acc
  = _get_env_vars_loop ext (model_config cls2) (_get_fields_info cls2) environ
      items acc.
Proof.
  revert acc. induction items as [|[n t] items IH]; intros acc; simpl; [done|].
  destruct (String.eqb n "model_config"); [apply IH|].
  rewrite (same_but_factory_env_name n).
  destruct (_get_env_name (model_config cls2) (_get_fields_info cls2) n)
    as [key|e]; simpl; [|done].
  destruct (environ !! key) as [raw|]; [|apply IH].
  destruct (_convert_env_value ext raw t); [apply IH | done].
Qed.

Lemma same_but_factory_default (n : string) :
  n <> f ->
  _get_field_default (_get_fields_info cls1) n
  = _get_field_default (_get_fields_info cls2) n.
Proof.
  intros Hne. destruct Hsame as (_ & Hann & _).
  unfold _get_field_default, _get_fields_info.
  rewrite !dict_lookup_loop, Hann.
  destruct (String.eqb n "model_config"); [done|].
  destruct (dict_lookup (annotations cls2) n) as [t|]; simpl; [|done].
  destruct (same_but_factory_info n t) as (_ & _ & _ & _ & Heq).
  by rewrite (Heq Hne).
Qed.

Lemma same_but_factory_fields (values : gmap string pyval)
    (items : list (string * ftype)) (attrs : gmap string pyval) :
  (exists v, values !! f = Some v /\ v <> VNone) \/ f ∉ items.*1 ->
  set_fields ext (_get_fields_info cls1) values
    (_get_fields_info_loop cls1 items) attrs
  = set_fields ext (_get_fields_info cls2) values
      (_get_fields_info_loop cls2 items) attrs.
Proof.
  intros Hsup. revert attrs.
  induction items as [|[n t] items IH]; intros attrs; simpl; [done|].
  assert ((exists v, values !! f = Some v /\ v <> VNone) \/ f ∉ items.*1) as Hsup'.
  { destruct Hsup as [H|H]; [by left|]. right.
    simpl in H. by apply not_elem_of_cons in H as [_ H]. }
  destruct (String.eqb n "model_config"); [by apply IH|].
  simpl.
  assert (set_field ext (_get_fields_info cls1) values attrs n (field_info_of cls1 n t)
          = set_field ext (_get_fields_info cls2) values attrs n
              (field_info_of cls2 n t)) as ->.
  { destruct (same_but_factory_info n t) as (Ht & _ & Hd & Hf & Heq).
    destruct (decide (n = f)) as [->|Hne].
    - destruct Hsup as [(v & Hv & Hnone)|Hnot].
      + unfold set_field. rewrite Hv. simpl.
        apply is_None_false in Hnone. rewrite Hnone. simpl.
        by rewrite Ht, Hd, Hf.
      + exfalso. apply Hnot. simpl. by left.
    - unfold set_field. rewrite (same_but_factory_default n Hne), (Heq Hne). done. }
  destruct (set_field ext (_get_fields_info cls2) values attrs n
              (field_info_of cls2 n t)); simpl; [by apply IH | done].
Qed.

Lemma same_but_factory_schema (items : list (string * ftype)) :
  _generate_schema ext (_get_fields_info_loop cls1 items)
  = _generate_schema ext (_get_fields_info_loop cls2 items).
Proof.
  unfold _generate_schema.
  assert (schema_properties ext (_get_fields_info_loop cls1 items)
          = schema_properties ext (_get_fields_info_loop cls2 items)) as ->.
  { induction items as [|[n t] items IH]; simpl; [done|].
    destruct (String.eqb n "model_config"); [done|]. simpl.
    destruct (same_but_factory_info n t) as (-> & _). by rewrite IH. }
  assert (schema_required (_get_fields_info_loop cls1 items)
          = schema_required (_get_fields_info_loop cls2 items)) as ->; [|done].
  rewrite !schema_required_loop. apply list_filter_iff. intros n.
  assert (declares_default cls1 n = declares_default cls2 n) as ->; [|done].
  pose proof (required_field_info_of cls1 n TAny) as H1.
  pose proof (required_field_info_of cls2 n TAny) as H2.
  destruct (same_but_factory_info n TAny) as (_ & _ & Hd & Hf & _).
  unfold required in H1, H2. rewrite Hd, Hf, H2 in H1.
  by destruct (declares_default cls1 n), (declares_default cls2 n).
Qed.

End Laziness.

(** X16. The default factory of a field is called only when neither the
    environment nor the arguments supply the field: when the variable is
    not set and an explicit value other than [None] is given, replacing
    the factory by any other (one that raises, say) leaves the outcome
    of construction as it is. *)
Theorem factory_not_called_when_supplied (ext : external)
    (cls1 cls2 : settings_class) (environ : gmap string string)
    (values : gmap string pyval) (f : string) (v : pyval) :
  same_but_factory cls1 cls2 f ->
  wf_class cls1 -> f ∈ (_get_fields_info cls1).*1 ->
  environ !! env_key cls1 f = None ->
  values !! f = Some v -> v <> VNone ->
  __init__ ext cls1 environ values = __init__ ext cls2 environ values.
Proof.
  intros Hsame Hwf Hin Hraw Hv Hne.
  pose proof Hsame as (Hconfig & Hann & _).
  assert (_get_env_vars ext cls1 (_get_fields_info cls1) environ
          = _get_env_vars ext cls2 (_get_fields_info cls2) environ) as Henv.
  { unfold _get_env_vars. rewrite <- Hann.
    apply (same_but_factory_env ext cls1 cls2 f Hsame). }
  assert (_generate_schema ext (_get_fields_info cls1)
          = _generate_schema ext (_get_fields_info cls2)) as Hschema.
  { unfold _get_fields_info. rewrite <- Hann.
    apply (same_but_factory_schema ext cls1 cls2 f Hsame). }
  assert (forall vals, vals !! f = Some v ->
            set_fields ext (_get_fields_info cls1) vals (_get_fields_info cls1) ∅
            = set_fields ext (_get_fields_info cls2) vals (_get_fields_info cls2) ∅)
    as Hfields.
  { intros vals Hvals. unfold _get_fields_info at 2 4. rewrite <- Hann.
    apply (same_but_factory_fields ext cls1 cls2 f Hsame). left. by exists v. }
  unfold __init__, _validate_and_set_values. rewrite <- Henv.
  destruct (_get_env_vars ext cls1 (_get_fields_info cls1) environ)
    as [env_vars|e] eqn:Hvars; simpl; [|done].
  rewrite Hfields, Hschema; [done|].
  rewrite merge_values_lookup.
  apply list_elem_of_fmap in Hin as [[f' info] [Heq Hin]]. simpl in Heq. subst f'.
  pose proof (_get_env_vars_lookup ext cls1 environ env_vars f info Hwf Hin Hvars)
    as Hlook.
  rewrite Hraw in Hlook. by rewrite Hlook.
Qed.

Lemma factory_not_called_when_supplied_witness :
  __init__ Reference.runtime tags_settings ∅ {[ "tags" := VStr "x" ]}
  = __init__ Reference.runtime failing_tags_settings ∅ {[ "tags" := VStr "x" ]}.
Proof.
  apply (factory_not_called_when_supplied Reference.runtime tags_settings
           failing_tags_settings ∅ {[ "tags" := VStr "x" ]} "tags" (VStr "x")).
  - split; [reflexivity|]. split; [reflexivity|]. split.
    + intros n Hn. simpl. by rewrite !lookup_singleton_ne.
    + do 2 eexists. simpl. rewrite !lookup_singleton_eq.
      split; [reflexivity|]. split; [reflexivity|].
      split; [reflexivity|]. split; [reflexivity|]. split; by eexists.
  - apply wf_class_singleton.
  - apply list_elem_of_singleton. reflexivity.
  - apply lookup_empty.
  - vm_compute. reflexivity.
  - discriminate.
Defined.

(** X17. When a field is supplied by no source and its default factory
    raises, construction raises the exception of the factory as it is
    (the call stands outside the handler of the validation), provided the
    environment was read and the fields before it were assigned. *)
Theorem factory_failure_propagates (ext : external) (cls : settings_class)
    (environ : gmap string string) (values env_vars attrs0 : gmap string pyval)
    (pre post : list (string * field_info)) (f : string) (info : field_info)
    (factory : unit -> outcome pyval) (e : exn) :
  wf_class cls ->
  _get_fields_info cls = (pre ++ (f, info) :: post)%list ->
  _get_env_vars ext cls (_get_fields_info cls) environ = Ok env_vars ->
  set_fields ext (_get_fields_info cls) (merge_values values env_vars) pre ∅
  = Ok attrs0 ->
  environ !! env_key cls f = None ->
  default VNone (values !! f) = VNone ->
  fi_default_factory info = Some factory ->
  factory tt = Raise e ->
  __init__ ext cls environ values = Raise e.
Proof.
  intros Hwf Hfields Henv Hpre Hraw Hval Hfac He.
  assert ((f, info) ∈ _get_fields_info cls) as Hin.
  { rewrite Hfields. apply elem_of_app. right. by left. }
  pose proof (_get_env_vars_lookup ext cls environ env_vars f info Hwf Hin Henv)
    as Hlook.
  rewrite Hraw in Hlook.
  unfold __init__, _validate_and_set_values. rewrite Henv. simpl.
  rewrite Hfields at 2. rewrite set_fields_app, Hpre. simpl.
  rewrite set_field_selected. unfold selected_value.
  rewrite merge_values_lookup, Hlook, Hval. simpl.
  by rewrite (_get_field_default_catalogued cls f info Hwf Hin), Hfac, He.
Qed.

Lemma factory_failure_propagates_witness :
  __init__ Reference.runtime failing_tags_settings ∅ ∅
  = Raise (Exn "RuntimeError" false false "no default").
Proof.
  refine (factory_failure_propagates Reference.runtime failing_tags_settings
            ∅ ∅ ∅ ∅ [] [] "tags"
            (field_info_of failing_tags_settings "tags" TAny)
            (fun _ => Raise (Exn "RuntimeError" false false "no default"))
            (Exn "RuntimeError" false false "no default") _ _ _ _ _ _ _ _).
  - apply wf_class_singleton.
  - reflexivity.
  - reflexivity.
  - reflexivity.
  - apply lookup_empty.
  - reflexivity.
  - vm_compute. reflexivity.
  - reflexivity.
Defined.
